(** * GoDaddy domain availability checker

    A shallow embedding of [domain_checker.py] (the command-line checker) and
    of [app.py] (the Streamlit front end), and the properties of the
    classification heuristic and of the batch loop that their specification
    states.

    - Strings are Rocq strings read as ASCII text; [lower] and [strip] do
      what Python's [str.lower] and [str.strip] do on such text.
    - The browser session is an abstract state with the operations the
      scripts call on it ([WebDriver]); every call Selenium can fail on
      returns an [outcome], a value or a raised exception.
    - [check_domain_availability] is the function of that name, which the
      two scripts share but for the page title read in the command-line
      checker and the fifty characters kept of an error message in the web
      application; [fetch] and [classify] name its two halves.
    - Standard output is the list of the lines printed, a file is its name
      and its rows.  The pauses ([time.sleep]), the closing of the browser
      and the Streamlit widgets are left out. *)

From Stdlib Require Import String Ascii List Bool Arith Lia.
From Stdlib Require Import DecimalString.
Import ListNotations.

Open Scope list_scope.
Open Scope string_scope.

Set Warnings "-register-all".

(** ** Python strings *)

Module PyStr.

(** [c.lower()] on one character: the letters [A]..[Z] move to [a]..[z]. *)
Definition lower_char (c : ascii) : ascii :=
  let n := nat_of_ascii c in
  if ((65 <=? n)%nat && (n <=? 90)%nat)%bool then ascii_of_nat (n + 32) else c.

(** [s.lower()]. *)
Fixpoint lower (s : string) : string :=
  match s with
  | EmptyString => EmptyString
  | String c rest => String (lower_char c) (lower rest)
  end.

(** The characters [str.strip()] removes: tab, line feed, vertical tab,
    form feed, carriage return, the separators 28..31 and the blank. *)
Definition isspace (c : ascii) : bool :=
  let n := nat_of_ascii c in
  ((9 <=? n)%nat && (n <=? 13)%nat) || ((28 <=? n)%nat && (n <=? 32)%nat).

Fixpoint lstrip (s : string) : string :=
  match s with
  | EmptyString => EmptyString
  | String c rest => if isspace c then lstrip rest else s
  end.

Fixpoint rstrip (s : string) : string :=
  match s with
  | EmptyString => EmptyString
  | String c rest =>
      match rstrip rest with
      | EmptyString => if isspace c then EmptyString else String c EmptyString
      | kept => String c kept
      end
  end.

(** [s.strip()]. *)
Definition strip (s : string) : string := rstrip (lstrip s).

(** [s.startswith(p)]. *)
Fixpoint startswith (p s : string) : bool :=
  match p, s with
  | EmptyString, _ => true
  | String _ _, EmptyString => false
  | String a p', String b s' => Ascii.eqb a b && startswith p' s'
  end.

(** [needle in hay] on strings: [needle] occurs in [hay] as a substring. *)
Fixpoint is_in (needle hay : string) : bool :=
  startswith needle hay
  || match hay with
     | EmptyString => false
     | String _ rest => is_in needle rest
     end.

(** [s[:n]]. *)
Fixpoint take (n : nat) (s : string) : string :=
  match n, s with
  | O, _ => EmptyString
  | S _, EmptyString => EmptyString
  | S n', String c rest => String c (take n' rest)
  end.

(** [not s]: the string is empty. *)
Definition is_empty (s : string) : bool :=
  match s with EmptyString => true | String _ _ => false end.

(** [str(n)] for a natural number. *)
Definition of_nat (n : nat) : string :=
  NilZero.string_of_uint (Nat.to_uint n).

(** [any(ind in t for ind in inds)]. *)
Definition any_in (inds : list string) (t : string) : bool :=
  existsb (fun ind => is_in ind t) inds.

End PyStr.

Import PyStr.

Arguments any_in : simpl never.

(** ** Exceptions *)

(** The two classes of exception the scripts tell apart: the inner handler
    of the element scan catches [NoSuchElementException] only, every other
    handler catches [Exception].  The argument is [str(e)]. *)
Inductive exn : Type :=
| NoSuchElementException (msg : string)
| OtherException (msg : string).

Definition str (e : exn) : string :=
  match e with
  | NoSuchElementException msg => msg
  | OtherException msg => msg
  end.

Inductive outcome (A : Type) : Type :=
| Ok (a : A)
| Raise (e : exn).

Arguments Ok {A} a.
Arguments Raise {A} e.

Definition bind {A B : Type} (m : outcome A) (k : A -> outcome B) : outcome B :=
  match m with
  | Ok a => k a
  | Raise e => Raise e
  end.

Notation "x <- m ;; k" := (bind m (fun x => k))
  (at level 61, m at next level, right associativity).

(** [try: body except Exception as e: handler]. *)
Definition try_except {A : Type} (body : outcome A) (handler : exn -> A) : A :=
  match body with
  | Ok a => a
  | Raise e => handler e
  end.

(** [try: body except NoSuchElementException: handler]; what the handler
    raises, and any other exception of the body, goes on to the caller. *)
Definition try_except_NoSuchElement {A : Type}
    (body : outcome A) (handler : outcome A) : outcome A :=
  match body with
  | Raise (NoSuchElementException _) => handler
  | other => other
  end.

(** ** The page as Selenium shows it *)

(** A [WebElement]: its [.text], and what
    [find_element(By.XPATH, "./ancestor::*[contains(@class, 'domain') or
    contains(@class, 'result')][1]")] gives on it. *)
Inductive WebElement : Type :=
| Element (text : outcome string) (find_element : outcome WebElement).

Definition text (el : WebElement) : outcome string :=
  match el with Element t _ => t end.

Definition find_element (el : WebElement) : outcome WebElement :=
  match el with Element _ p => p end.

(** What the driver shows once [driver.get] has returned: [page_source],
    [title], and [find_elements(By.XPATH, xpath)]. *)
Record Page : Type := {
  page_source : outcome string;
  title : outcome string;
  find_elements : string -> outcome (list WebElement)
}.

(** The browser session: [driver.implicitly_wait(seconds)] and
    [driver.get(url)] act on the session and may raise; [page] is what the
    session shows. *)
Class WebDriver (B : Type) : Type := {
  implicitly_wait : nat -> B -> outcome unit * B;
  get : string -> B -> outcome unit * B;
  page : B -> Page
}.

(** ** The classifier (both scripts carry the same code) *)

Definition taken_indicators : list string :=
  ["is taken"; "domain taken"; "already taken"; "unavailable"; "not available"].

Definition available_indicators : list string :=
  ["add to cart"; "buy now"; "add to bag"; "purchase"].

(** The pair of variables [is_available], [status]. *)
Definition verdict : Type := (option bool * string)%type.

Definition is_available (st : verdict) : option bool := fst st.
Definition status (st : verdict) : string := snd st.

Definition initial : verdict := (None, "Unknown").
Definition Taken : verdict := (Some false, "Taken").
Definition Available_ : verdict := (Some true, "Available").

(** The three values the pair [is_available], [status] ever takes. *)
Inductive settled : verdict -> Prop :=
| settled_initial : settled initial
| settled_Taken : settled Taken
| settled_Available : settled Available_.

(** [for indicator in taken_indicators: if indicator in page_text: ...; break] *)
Fixpoint taken_scan (indicators : list string) (page_text : string)
    (st : verdict) : verdict :=
  match indicators with
  | [] => st
  | indicator :: rest =>
      if is_in indicator page_text then Taken
      else taken_scan rest page_text st
  end.

(** The [if]/[elif] on the text inspected for one element: [Some] is an
    assignment followed by [break], [None] goes to the next element. *)
Definition inspect (inspected : string) : option verdict :=
  if any_in available_indicators inspected then Some Available_
  else if any_in taken_indicators inspected then Some Taken
  else None.

(** The body of the loop over [domain_elements]: the ancestor's text, or the
    element's own text when the ancestor lookup raises
    [NoSuchElementException]. *)
Definition element_body (element : WebElement) : outcome (option verdict) :=
  try_except_NoSuchElement
    (parent <- find_element element ;;
     parent_text <- text parent ;;
     Ok (inspect (lower parent_text)))
    (element_text <- text element ;;
     Ok (inspect (lower element_text))).

(** The text the loop body inspects for one element: the lowered text of
    the ancestor, or of the element itself. *)
Definition inspected_text (element : WebElement) : outcome string :=
  try_except_NoSuchElement
    (parent <- find_element element ;;
     parent_text <- text parent ;;
     Ok (lower parent_text))
    (element_text <- text element ;;
     Ok (lower element_text)).

(** [for element in domain_elements: ...].  No assignment is followed by a
    raise, so an exception leaves the variables as they were on entry. *)
Fixpoint element_scan (domain_elements : list WebElement) (st : verdict)
    : outcome verdict :=
  match domain_elements with
  | [] => Ok st
  | element :: rest =>
      r <- element_body element ;;
      match r with
      | Some st' => Ok st'
      | None => element_scan rest st
      end
  end.

(** The fallback on the page text that closes the [try] block. *)
Definition page_fallback (page_text full_domain : string) (st : verdict)
    : verdict :=
  if any_in available_indicators page_text then
    if is_in full_domain page_text then Available_ else st
  else if is_in "domain taken" page_text
          || is_in (full_domain ++ " is taken") page_text then Taken
  else st.

(** The handler of [except Exception] around the element scan. *)
Definition except_fallback (page_text : string) (st : verdict) : verdict :=
  if any_in available_indicators page_text then Available_
  else if any_in taken_indicators page_text then Taken
  else st.

Definition xpath (full_domain : string) : string :=
  "//*[contains(text(), '" ++ full_domain ++ "')]".

(** The element scan: the query for the elements whose text holds
    [full_domain], then the loop over them. *)
Definition stage2 (pg : Page) (full_domain : string) (st : verdict)
    : outcome verdict :=
  domain_elements <- find_elements pg (xpath full_domain) ;;
  element_scan domain_elements st.

(** The [try] block entered when [is_available is None]: the element scan,
    then the page fallback if the scan assigned nothing. *)
Definition targeted (pg : Page) (page_text full_domain : string)
    (st : verdict) : outcome verdict :=
  st' <- stage2 pg full_domain st ;;
  Ok (match is_available st' with
      | None => page_fallback page_text full_domain st'
      | Some _ => st'
      end).

(** From the page text to [is_available] and [status]: the body of
    [check_domain_availability] between the reading of the page and the
    building of the result. *)
Definition classify (pg : Page) (page_text full_domain : string) : verdict :=
  let st := taken_scan taken_indicators page_text initial in
  match is_available st with
  | None =>
      try_except (targeted pg page_text full_domain st)
                 (fun _ => except_fallback page_text st)
  | Some _ => st
  end.

(** ** One query *)

(** The result dictionary. *)
Record CheckResult : Type := {
  Domain_Name : string;
  Extension : string;
  Full_Domain : string;
  Available : string;
  Status : string
}.

(** ["Yes" if is_available else "No" if is_available is False else "Unknown"] *)
Definition available_field (a : option bool) : string :=
  match a with
  | Some true => "Yes"
  | Some false => "No"
  | None => "Unknown"
  end.

(** The two scripts. *)
Inductive script : Type := domain_checker_py | app_py.

(** The text after ["Error: "]: [str(e)] in the command-line checker,
    [str(e)[:50]] in the web application. *)
Definition error_text (src : script) (e : exn) : string :=
  match src with
  | domain_checker_py => str e
  | app_py => take 50 (str e)
  end.

Definition search_url (full_domain : string) : string :=
  "https://www.godaddy.com/domainsearch/find?checkAvail=1&domainToCheck="
  ++ full_domain.

Section Driver.

Context {B : Type} `{WebDriver B}.

(** The head of the [try] block: navigate, read [page_source] lowered (and
    [title] in the command-line checker).  Gives [page_text]. *)
Definition fetch (src : script) (driver : B) (full_domain : string)
    : outcome string * B :=
  let (got, driver') := get (search_url full_domain) driver in
  (_ <- got ;;
   source <- page_source (page driver') ;;
   let page_text := lower source in
   match src with
   | domain_checker_py =>
       t <- title (page driver') ;;
       let page_title := lower t in
       Ok page_text
   | app_py => Ok page_text
   end,
   driver').

Definition check_domain_availability (src : script) (driver : B)
    (domain_name extension : string) : CheckResult * B :=
  let full_domain := domain_name ++ extension in
  let (fetched, driver') := fetch src driver full_domain in
  (try_except
     (page_text <- fetched ;;
      let st := classify (page driver') page_text full_domain in
      Ok {| Domain_Name := domain_name;
            Extension := extension;
            Full_Domain := full_domain;
            Available := available_field (is_available st);
            Status := status st |})
     (fun e =>
        {| Domain_Name := domain_name;
           Extension := extension;
           Full_Domain := full_domain;
           Available := "Unknown";
           Status := "Error: " ++ error_text src e |}),
   driver').

End Driver.

(** ** The batch loops *)

(** The line feed, and [s * n]. *)
Definition nl : string := String (ascii_of_nat 10) EmptyString.

Fixpoint times (s : string) (n : nat) : string :=
  match n with
  | O => EmptyString
  | S n' => s ++ times s n'
  end.

(** [sum(1 for r in results if r["Available"] == v)]. *)
Definition count_available (v : string) (results : list CheckResult) : nat :=
  length (filter (fun r => String.eqb (Available r) v) results).

Module domain_checker.
Section Batch.

Context {B : Type} `{WebDriver B}.

(** [for extension in extensions: ...] for one base name: the results
    appended, the lines printed, the session afterwards. *)
Fixpoint extension_loop (driver : B) (domain_name : string)
    (extensions : list string) : list CheckResult * list string * B :=
  match extensions with
  | [] => ([], [], driver)
  | extension :: rest =>
      let (result, driver1) :=
        check_domain_availability domain_checker_py driver
                                  domain_name extension in
      let '(results, printed, driver2) :=
        extension_loop driver1 domain_name rest in
      (result :: results,
       ("Checking " ++ domain_name ++ extension ++ "...")
         :: ("  Result: " ++ Available result ++ " - " ++ Status result)
         :: printed,
       driver2)
  end.

(** [for domain_name in domain_names: ...]. *)
Fixpoint domain_loop (driver : B) (domain_names extensions : list string)
    : list CheckResult * list string * B :=
  match domain_names with
  | [] => ([], [], driver)
  | domain_name :: rest =>
      let domain_name := lower (strip domain_name) in
      if is_empty domain_name then domain_loop driver rest extensions
      else
        let '(results1, printed1, driver1) :=
          extension_loop driver domain_name extensions in
        let '(results2, printed2, driver2) :=
          domain_loop driver1 rest extensions in
        ((results1 ++ results2)%list, (printed1 ++ printed2)%list, driver2)
  end.

(** The three lines of the handler around the whole run. *)
Definition setup_error (e : exn) : list string :=
  [ "Error setting up browser: " ++ str e;
    "Make sure you have ChromeDriver installed and in your PATH";
    "Or install it with: brew install chromedriver (on macOS)" ].

(** [check_domains]: [chrome] is what [webdriver.Chrome(options=options)]
    gives.  The results and the lines printed. *)
Definition check_domains (chrome : outcome B)
    (domain_names extensions : list string)
    : list CheckResult * list string :=
  match chrome with
  | Raise e => ([], setup_error e)
  | Ok driver =>
      match implicitly_wait 5 driver with
      | (Raise e, _) => ([], setup_error e)
      | (Ok _, driver') =>
          let '(results, printed, _) :=
            domain_loop driver' domain_names extensions in
          (results, printed)
      end
  end.

Definition default_extensions : list string := [".com"; ".dev"; ".ai"].

Definition fieldnames : list string :=
  ["Domain Name"; "Extension"; "Full Domain"; "Available"; "Status"].

Definition row (r : CheckResult) : list string :=
  [Domain_Name r; Extension r; Full_Domain r; Available r; Status r].

(** [save_to_csv]: the file written, as its name and its rows (none when
    there is no result), and the line printed. *)
Definition save_to_csv (results : list CheckResult) (filename : string)
    : option (string * list (list string)) * list string :=
  match results with
  | [] => (None, ["No results to save."])
  | _ :: _ =>
      (Some (filename, fieldnames :: map row results),
       [nl ++ "Results saved to " ++ filename])
  end.

(** What a run of [main] leaves: the lines on standard output and the
    file written. *)
Record Run : Type := {
  stdout : list string;
  csv_file : option (string * list (list string))
}.

Definition banner : list string :=
  ["Domain Availability Checker for GoDaddy"; times "=" 50].

Definition heading (domain_names : list string) : list string :=
  [ nl ++ "Checking " ++ of_nat (length domain_names)
    ++ " domain name(s) for .com, .dev, and .ai extensions...";
    "Total checks: " ++ of_nat (length domain_names * 3) ++ nl ].

Definition summary (results : list CheckResult) : list string :=
  let available_count := count_available "Yes" results in
  let taken_count := count_available "No" results in
  let unknown_count := count_available "Unknown" results in
  [ nl ++ times "=" 50;
    "Summary:";
    "Available: " ++ of_nat available_count;
    "Taken: " ++ of_nat taken_count;
    "Unknown/Error: " ++ of_nat unknown_count ].

(** [main], from the point where [domain_names] has been read (from the
    arguments, from [domains.txt], or from standard input). *)
Definition main (chrome : outcome B) (domain_names : list string) : Run :=
  match domain_names with
  | [] =>
      {| stdout := concat [banner; ["No domain names provided. Exiting."]];
         csv_file := None |}
  | _ :: _ =>
      let '(results, printed) :=
        check_domains chrome domain_names default_extensions in
      let (file, saved) := save_to_csv results "domain_check_results.csv" in
      {| stdout := concat [banner; heading domain_names; printed; saved;
                           summary results];
         csv_file := file |}
  end.

End Batch.
End domain_checker.

Module app.
Section Batch.

Context {B : Type} `{WebDriver B}.

(** [init_driver]: [None] when the browser cannot be set up. *)
Definition init_driver (chrome : outcome B) : option B :=
  match chrome with
  | Raise _ => None
  | Ok driver =>
      match implicitly_wait 5 driver with
      | (Raise _, _) => None
      | (Ok _, driver') => Some driver'
      end
  end.

(** [[line.strip().lower() for line in lines if line.strip()]], on the
    lines of the text area or of the uploaded file. *)
Definition input_names (lines : list string) : list string :=
  map (fun line => lower (strip line))
      (filter (fun line => negb (is_empty (strip line))) lines).

Fixpoint extension_loop (driver : B) (domain_name : string)
    (extensions : list string) : list CheckResult * B :=
  match extensions with
  | [] => ([], driver)
  | extension :: rest =>
      let (result, driver1) :=
        check_domain_availability app_py driver domain_name extension in
      let (results, driver2) := extension_loop driver1 domain_name rest in
      (result :: results, driver2)
  end.

(** [for idx, domain_name in enumerate(domain_names): ...]. *)
Fixpoint domain_loop (driver : B) (domain_names extensions : list string)
    : list CheckResult * B :=
  match domain_names with
  | [] => ([], driver)
  | domain_name :: rest =>
      if is_empty domain_name then domain_loop driver rest extensions
      else
        let (results1, driver1) :=
          extension_loop driver domain_name extensions in
        let (results2, driver2) := domain_loop driver1 rest extensions in
        ((results1 ++ results2)%list, driver2)
  end.

(** The "Check Domains" button of [main]: the results stored in the
    session state, [None] when the run returns before the loop. *)
Definition check_button (chrome : outcome B)
    (domain_names extensions : list string) : option (list CheckResult) :=
  match domain_names, extensions with
  | [], _ => None
  | _, [] => None
  | _, _ =>
      match init_driver chrome with
      | None => None
      | Some driver => Some (fst (domain_loop driver domain_names extensions))
      end
  end.

End Batch.
End app.

(** ** A scripted browser, for the examples *)

(** A site answers each URL with the outcome of [get] and the page shown. *)
Record Scripted : Type := {
  site : string -> outcome unit * Page;
  shown : Page
}.

Definition blank : Page :=
  {| page_source := Ok ""; title := Ok ""; find_elements := fun _ => Ok [] |}.

#[export] Instance Scripted_WebDriver : WebDriver Scripted := {
  implicitly_wait := fun _ b => (Ok tt, b);
  get := fun url b =>
    let (got, pg) := site b url in (got, {| site := site b; shown := pg |});
  page := shown
}.

(** A site that shows the same page at every URL. *)
Definition serving (pg : Page) : Scripted :=
  {| site := fun _ => (Ok tt, pg); shown := blank |}.

(** The session a scripted site is in once it shows [pg]. *)
Definition showing (pg : Page) : Scripted :=
  {| site := site (serving pg); shown := pg |}.

(** A site where every navigation fails with [e]. *)
Definition failing (e : exn) : Scripted :=
  {| site := fun _ => (Raise e, blank); shown := blank |}.

(** An element without a matching ancestor. *)
Definition orphan (t : string) : WebElement :=
  Element (Ok t) (Raise (NoSuchElementException "no such element")).

(** An element inside a result card whose text is [card]. *)
Definition in_card (t card : string) : WebElement :=
  Element (Ok t) (Ok (orphan card)).

(** ** The words of the specification *)

(** The normalized base names of a batch: each name trimmed and lowered,
    the blank ones dropped, the order kept. *)
Definition normalized_base_names (base_names : list string) : list string :=
  filter (fun s => negb (is_empty s))
         (map (fun s => lower (strip s)) base_names).

(** The query a result answers. *)
Definition query (r : CheckResult) : string * string :=
  (Domain_Name r, Extension r).

(** The result of a query that was classified as [st]. *)
Definition classified (domain_name extension : string) (st : verdict)
    : CheckResult :=
  {| Domain_Name := domain_name;
     Extension := extension;
     Full_Domain := domain_name ++ extension;
     Available := available_field (is_available st);
     Status := status st |}.

(** The result of a query whose fetch raised, with [message] after the
    prefix. *)
Definition errored (domain_name extension message : string) : CheckResult :=
  {| Domain_Name := domain_name;
     Extension := extension;
     Full_Domain := domain_name ++ extension;
     Available := "Unknown";
     Status := "Error: " ++ message |}.

(** The three values of the field [Available]. *)
Definition tri_state (r : CheckResult) : Prop :=
  Available r = "Yes" \/ Available r = "No" \/ Available r = "Unknown".

(** [r] is the result of the query for [fst q ++ snd q]: it carries the
    base name, the extension and their concatenation, and one of the three
    values of [Available]. *)
Definition answers (q : string * string) (r : CheckResult) : Prop :=
  query r = q /\ Full_Domain r = fst q ++ snd q /\ tri_state r.

(** ** Pages for the examples *)

(** The page says both that the name is taken and "Add to Cart". *)
Definition page_taken_with_cart : Page :=
  {| page_source :=
       Ok "<p>Foo.com is taken</p><button>Add to Cart</button>";
     title := Ok "Domain search";
     find_elements := fun _ => Ok [] |}.

(** The card of the name reads "is taken" and "Add to cart"; in the page
    source the two words of "is taken" are apart. *)
Definition page_card_both : Page :=
  {| page_source :=
       Ok "<div class='result'><span>foo.com</span> is <b>taken</b> <button>Add to cart</button></div>";
     title := Ok "Domain search";
     find_elements := fun _ =>
       Ok [in_card "foo.com" "foo.com is taken Add to cart"] |}.

(** The card of the name reads "is taken"; "Add to cart" stands elsewhere
    on the page. *)
Definition page_card_taken : Page :=
  {| page_source :=
       Ok "<div class='result'><span>foo.com</span> is <b>taken</b></div><button>Add to cart</button>";
     title := Ok "Domain search";
     find_elements := fun _ => Ok [in_card "foo.com" "foo.com is taken"] |}.

(** The card of the name reads "Add to cart"; the page source holds no
    indicator of either family. *)
Definition page_card_cart : Page :=
  {| page_source :=
       Ok "<div class='result'><span>foo.com</span><button>Add <i>to</i> cart</button></div>";
     title := Ok "Domain search";
     find_elements := fun _ => Ok [in_card "foo.com" "foo.com Add to cart"] |}.

(** The query for the elements raises; the page offers other names only. *)
Definition page_query_raises : Page :=
  {| page_source := Ok "<button>Add to cart</button> foo.net";
     title := Ok "Domain search";
     find_elements := fun _ => Raise (OtherException "invalid selector") |}.

(** The element of the name has no enclosing card, and its own text reads
    "Add to cart"; the page source holds no indicator of either family. *)
Definition page_orphan_cart : Page :=
  {| page_source :=
       Ok "<span>foo.com <button>Add <i>to</i> cart</button></span>";
     title := Ok "Domain search";
     find_elements := fun _ => Ok [orphan "foo.com Add to cart"] |}.

(** The query for the elements raises; the page offers the name. *)
Definition page_offer_raises : Page :=
  {| page_source := Ok "<p>foo.com</p><button>Add to cart</button>";
     title := Ok "Domain search";
     find_elements := fun _ => Raise (OtherException "invalid selector") |}.

(** The page holds no indicator and no element for the name. *)
Definition page_plain : Page :=
  {| page_source := Ok "<p>Search for a domain</p>";
     title := Ok "Domain search";
     find_elements := fun _ => Ok [] |}.

(** The page offers the name, with no element found for it. *)
Definition page_offer : Page :=
  {| page_source := Ok "<p>bar.com</p><button>Add to Cart</button>";
     title := Ok "Domain search";
     find_elements := fun _ => Ok [] |}.

(** The page says in capitals that the name is taken. *)
Definition page_capitals : Page :=
  {| page_source := Ok "<P>FOO.COM Is TAKEN</P>";
     title := Ok "Domain search";
     find_elements := fun _ => Ok [] |}.

(** The page offers the name; its title cannot be read. *)
Definition page_untitled : Page :=
  {| page_source := Ok "<p>bar.com</p><button>Add to Cart</button>";
     title := Raise (OtherException "no title");
     find_elements := fun _ => Ok [] |}.

(** An element on which every call raises. *)
Definition stale : WebElement :=
  Element (Raise (OtherException "stale element reference"))
          (Raise (OtherException "stale element reference")).

(** A failure message of sixty characters. *)
Definition long_message : string := times "timeout! " 6 ++ "x y z!".

(** ** The rest of the two scripts *)

(** *** [domain_checker.py]: where [main] takes the names from *)

Module checker_input.

(** [[line.strip() for line in f if line.strip()]] on the lines of
    [domains.txt]. *)
Definition file_names (lines : list string) : list string :=
  map strip (filter (fun line => negb (is_empty (strip line))) lines).

(** [while True: name = input().strip(); if name: domain_names.append(name)],
    until the input ends. *)
Fixpoint typed_names (stdin : list string) : list string :=
  match stdin with
  | [] => []
  | line :: rest =>
      let name := strip line in
      if is_empty name then typed_names rest else name :: typed_names rest
  end.

Definition prompts : list string :=
  [ nl ++ "Please provide domain names:";
    "1. As command line arguments: python domain_checker.py name1 name2 name3";
    "2. Or create a 'domains.txt' file with one domain per line";
    "3. Or enter them now (one per line, press Ctrl+D when done):" ].

(** The names [main] works on and the lines it prints while reading them:
    [argv] is [sys.argv], [domains_txt] the lines of the file ([None] when
    opening it raises [FileNotFoundError]), [stdin] the lines typed. *)
Definition read_domain_names (argv : list string)
    (domains_txt : option (list string)) (stdin : list string)
    : list string * list string :=
  if (1 <? length argv)%nat then (tl argv, [])
  else
    match domains_txt with
    | Some lines => (file_names lines, [])
    | None => (typed_names stdin, prompts)
    end.

Section Batch.

Context {B : Type} `{WebDriver B}.

(** [main] as a whole. *)
Definition main (argv : list string) (domains_txt : option (list string))
    (stdin : list string) (chrome : outcome B) : domain_checker.Run :=
  let (domain_names, asked) := read_domain_names argv domains_txt stdin in
  match domain_names with
  | [] =>
      {| domain_checker.stdout :=
           concat [ domain_checker.banner; asked;
                    ["No domain names provided. Exiting."] ];
         domain_checker.csv_file := None |}
  | _ :: _ =>
      let '(results, printed) :=
        domain_checker.check_domains chrome domain_names
                                     domain_checker.default_extensions in
      let (file, saved) :=
        domain_checker.save_to_csv results "domain_check_results.csv" in
      {| domain_checker.stdout :=
           concat [ domain_checker.banner; asked;
                    domain_checker.heading domain_names; printed; saved;
                    domain_checker.summary results ];
         domain_checker.csv_file := file |}
  end.

End Batch.
End checker_input.

(** The two lines [check_domains] prints for a result. *)
Definition printed_for (r : CheckResult) : list string :=
  [ "Checking " ++ Full_Domain r ++ "...";
    "  Result: " ++ Available r ++ " - " ++ Status r ].

(** *** [app.py]: what [init_driver] shows *)

(** [st.error(body)] and [st.info(body)]. *)
Inductive st_message : Type :=
| st_error (body : string)
| st_info (body : string).

(** The two messages of the handler of [init_driver]. *)
Definition browser_error (e : exn) : list st_message :=
  [ st_error ("Error initializing browser: " ++ str e);
    st_info "Make sure ChromeDriver is installed. On macOS: `brew install chromedriver`" ].

(** [init_driver] with what it shows: the driver, or [None] and the two
    messages when the browser cannot be set up. *)
Definition init_driver_shown {B : Type} `{WebDriver B} (chrome : outcome B)
    : option B * list st_message :=
  match chrome with
  | Raise e => (None, browser_error e)
  | Ok driver =>
      match implicitly_wait 5 driver with
      | (Raise e, _) => (None, browser_error e)
      | (Ok _, driver') => (Some driver', [])
      end
  end.

(** *** [app.py]: the widgets of [main] *)

(** What the loop shows: [status_text.text(s)] and
    [progress_bar.progress(check_count / total_checks)], the fraction kept
    as its two terms. *)
Inductive shown_event : Type :=
| StatusText (s : string)
| Progress (check_count total_checks : nat).

Module app_widgets.
Section Batch.

Context {B : Type} `{WebDriver B}.

(** The inner loop, with [check_count] and what it shows. *)
Fixpoint extension_loop (driver : B) (domain_name : string)
    (extensions : list string) (check_count total_checks : nat)
    : list CheckResult * list shown_event * nat * B :=
  match extensions with
  | [] => ([], [], check_count, driver)
  | extension :: rest =>
      let check_count := check_count + 1 in
      let (result, driver1) :=
        check_domain_availability app_py driver domain_name extension in
      let '(results, events, final, driver2) :=
        extension_loop driver1 domain_name rest check_count total_checks in
      (result :: results,
       StatusText ("Checking " ++ domain_name ++ extension ++ "... ("
                   ++ of_nat check_count ++ "/" ++ of_nat total_checks ++ ")")
         :: Progress check_count total_checks :: events,
       final, driver2)
  end.

Fixpoint domain_loop (driver : B) (domain_names extensions : list string)
    (check_count total_checks : nat)
    : list CheckResult * list shown_event * nat * B :=
  match domain_names with
  | [] => ([], [], check_count, driver)
  | domain_name :: rest =>
      if is_empty domain_name
      then domain_loop driver rest extensions check_count total_checks
      else
        let '(results1, events1, count1, driver1) :=
          extension_loop driver domain_name extensions
                         check_count total_checks in
        let '(results2, events2, count2, driver2) :=
          domain_loop driver1 rest extensions count1 total_checks in
        ((results1 ++ results2)%list, (events1 ++ events2)%list,
         count2, driver2)
  end.

(** The "Check Domains" button with what its loop shows: the results
    stored and the events, [None] when it returns before the loop. *)
Definition check_button (chrome : outcome B)
    (domain_names extensions : list string)
    : option (list CheckResult * list shown_event) :=
  match domain_names, extensions with
  | [], _ => None
  | _, [] => None
  | _, _ =>
      match app.init_driver chrome with
      | None => None
      | Some driver =>
          let total_checks := length domain_names * length extensions in
          let '(results, events, _, _) :=
            domain_loop driver domain_names extensions 0 total_checks in
          Some (results, events)
      end
  end.

End Batch.

(** The rows the results table keeps, by the three check boxes. *)
Definition filtered (filter_available filter_taken filter_unknown : bool)
    (results : list CheckResult) : list CheckResult :=
  filter (fun r =>
            (Available r =? "Yes") && filter_available
            || (Available r =? "No") && filter_taken
            || (Available r =? "Unknown") && filter_unknown)
         results.

End app_widgets.

(** The fractions handed to the progress bar, in order. *)
Fixpoint fractions (events : list shown_event) : list (nat * nat) :=
  match events with
  | [] => []
  | Progress check_count total_checks :: rest =>
      (check_count, total_checks) :: fractions rest
  | StatusText _ :: rest => fractions rest
  end.

(** A name as [main] keeps it when it reads a file or the keyboard:
    trimmed and not blank. *)
Definition trimmed (name : string) : Prop :=
  strip name = name /\ is_empty name = false.

(** The results and the events of a pressed button, empty when it returned
    before the loop. *)
Definition stored (pressed : option (list CheckResult * list shown_event))
    : list CheckResult * list shown_event :=
  match pressed with
  | Some kept => kept
  | None => ([], [])
  end.

(** *** A session that keeps the addresses it was sent to *)

Record Logged (B : Type) : Type := {
  session : B;
  visited : list string
}.

Arguments session {B} _.
Arguments visited {B} _.

#[export] Instance Logged_WebDriver {B : Type} `{WebDriver B}
    : WebDriver (Logged B) := {
  implicitly_wait := fun n s =>
    let (r, b) := implicitly_wait n (session s) in
    (r, {| session := b; visited := visited s |});
  get := fun url s =>
    let (r, b) := get url (session s) in
    (r, {| session := b; visited := (visited s ++ [url])%list |});
  page := fun s => page (session s)
}.

(** The address of the query for a base name and an extension. *)
Definition query_url (q : string * string) : string :=
  search_url (fst q ++ snd q).

(** A string that is empty or opens with a character [strip] keeps. *)
Definition opens_unspaced (s : string) : Prop :=
  match s with
  | EmptyString => True
  | String c _ => isspace c = false
  end.

(** ** Facts on strings *)

Example lower_example : lower "Foo.COM is Taken [A-Z]" = "foo.com is taken [a-z]".
Proof. reflexivity. Qed.

Example strip_example : strip ("  My Name " ++ nl) = "My Name".
Proof. reflexivity. Qed.

Example is_in_example :
  is_in "is taken" "foo.com is taken" = true
  /\ is_in "is taken" "foo.com is <b>taken</b>" = false
  /\ is_in "" "" = true.
Proof. repeat split. Qed.

Example take_example : take 3 "timeout" = "tim" /\ take 50 "timeout" = "timeout".
Proof. split; reflexivity. Qed.

Lemma append_assoc (a b c : string) : (a ++ b) ++ c = a ++ (b ++ c).
Proof.
  induction a as [|x a IH]; simpl; [reflexivity | now rewrite IH].
Qed.

Lemma startswith_spec (p s : string) :
  startswith p s = true <-> exists post, s = p ++ post.
Proof.
  revert s; induction p as [|a p IH]; intros s; simpl.
  - split; [intros _; now exists s | reflexivity].
  - destruct s as [|b s].
    + split; [discriminate | intros [post E]; discriminate].
    + rewrite andb_true_iff, Ascii.eqb_eq, IH. split.
      * intros [-> [post ->]]. now exists post.
      * intros [post E]. injection E as -> ->. split; [reflexivity | now exists post].
Qed.

Lemma is_in_unfold (needle hay : string) :
  is_in needle hay =
  startswith needle hay
  || match hay with
     | EmptyString => false
     | String _ rest => is_in needle rest
     end.
Proof. destruct hay; reflexivity. Qed.

(** [needle in hay] holds exactly when [hay] is [pre ++ needle ++ post]. *)
Lemma is_in_spec (needle hay : string) :
  is_in needle hay = true <-> exists pre post, hay = pre ++ needle ++ post.
Proof.
  split.
  - induction hay as [|c hay IH]; rewrite is_in_unfold, orb_true_iff.
    + intros [Hp | Hf]; [| discriminate].
      apply startswith_spec in Hp as [post E]. now exists EmptyString, post.
    + intros [Hp | Hr].
      * apply startswith_spec in Hp as [post E]. now exists EmptyString, post.
      * destruct (IH Hr) as (pre & post & E).
        exists (String c pre), post. simpl. now rewrite E.
  - intros (pre & post & E). revert hay E.
    induction pre as [|c pre IH]; intros hay E; rewrite is_in_unfold, orb_true_iff.
    + left. apply startswith_spec. now exists post.
    + right. subst hay. simpl. now apply IH.
Qed.

(** A text that holds [a ++ b] holds [b]. *)
Lemma is_in_tail (a b hay : string) :
  is_in (a ++ b) hay = true -> is_in b hay = true.
Proof.
  rewrite !is_in_spec. intros (pre & post & E).
  exists (pre ++ a), post. now rewrite E, !append_assoc.
Qed.

Lemma any_in_spec (inds : list string) (t : string) :
  any_in inds t = true <-> exists ind, In ind inds /\ is_in ind t = true.
Proof. apply existsb_exists. Qed.

Lemma is_empty_lower (s : string) : is_empty (lower s) = is_empty s.
Proof. destruct s; reflexivity. Qed.

Lemma is_empty_true (s : string) : is_empty s = true -> s = EmptyString.
Proof. destruct s; [reflexivity | discriminate]. Qed.

(** ** Facts on the classifier *)

Create HintDb verdicts.
#[local] Hint Constructors settled : verdicts.

Lemma taken_scan_hit (inds : list string) (page_text : string) (st : verdict) :
  any_in inds page_text = true -> taken_scan inds page_text st = Taken.
Proof.
  unfold any_in.
  induction inds as [|ind inds IH]; simpl; [discriminate |].
  destruct (is_in ind page_text); simpl; [reflexivity | exact IH].
Qed.

Lemma taken_scan_miss (inds : list string) (page_text : string) (st : verdict) :
  any_in inds page_text = false -> taken_scan inds page_text st = st.
Proof.
  unfold any_in.
  induction inds as [|ind inds IH]; simpl; [reflexivity |].
  destruct (is_in ind page_text); simpl; [discriminate | exact IH].
Qed.

Lemma inspect_cases (t : string) :
  inspect t = None \/ inspect t = Some Taken \/ inspect t = Some Available_.
Proof.
  unfold inspect.
  destruct (any_in available_indicators t); [auto |].
  destruct (any_in taken_indicators t); auto.
Qed.

(** Both branches of the loop body apply the same test to that text. *)
Lemma element_body_inspected (element : WebElement) :
  element_body element = (t <- inspected_text element ;; Ok (inspect t)).
Proof.
  unfold element_body, inspected_text.
  destruct element as [t p]; simpl.
  destruct p as [[pt pp] | [m | m]]; simpl;
    repeat match goal with
           | |- context [bind ?x _] => destruct x as [? | [? | ?]]; simpl
           end; reflexivity.
Qed.

Lemma element_body_settled (element : WebElement) (st : verdict) :
  element_body element = Ok (Some st) -> st = Taken \/ st = Available_.
Proof.
  rewrite element_body_inspected.
  destruct (inspected_text element) as [t | e]; simpl; [| discriminate].
  intros E. injection E as E.
  destruct (inspect_cases t) as [C | [C | C]]; rewrite C in E;
    [discriminate | injection E as <- | injection E as <-]; auto.
Qed.

Lemma element_scan_cases (els : list WebElement) (st st' : verdict) :
  element_scan els st = Ok st' -> st' = st \/ st' = Taken \/ st' = Available_.
Proof.
  induction els as [|el els IH]; simpl.
  - intros E. injection E as <-. now left.
  - destruct (element_body el) as [[v |] | e] eqn:Eb; simpl.
    + intros E. injection E as <-. right. now apply (element_body_settled el).
    + exact IH.
    + discriminate.
Qed.

(** A Taken verdict of the element loop comes from an element whose
    inspected text holds a taken indicator and no available indicator. *)
Lemma element_scan_Taken_source (els : list WebElement) :
  element_scan els initial = Ok Taken ->
  exists element inspected,
    In element els
    /\ inspected_text element = Ok inspected
    /\ any_in available_indicators inspected = false
    /\ any_in taken_indicators inspected = true.
Proof.
  induction els as [|el els IH]; simpl; [discriminate |].
  rewrite element_body_inspected.
  destruct (inspected_text el) as [t | e] eqn:Et; simpl; [| discriminate].
  unfold inspect.
  destruct (any_in available_indicators t) eqn:Ea; [discriminate |].
  destruct (any_in taken_indicators t) eqn:Ett.
  - intros _. exists el, t. auto.
  - intros E. destruct (IH E) as (el' & t' & Hin & Hrest).
    exists el', t'. auto.
Qed.

Lemma stage2_cases (pg : Page) (full_domain : string) (st : verdict) :
  stage2 pg full_domain initial = Ok st ->
  st = initial \/ st = Taken \/ st = Available_.
Proof.
  unfold stage2.
  destruct (find_elements pg (xpath full_domain)) as [els | e]; simpl;
    [apply element_scan_cases | discriminate].
Qed.

(** With no taken indicator in the page text, the classifier is the element
    scan, then the page fallback, under the handler. *)
Lemma classify_not_taken (pg : Page) (page_text full_domain : string) :
  any_in taken_indicators page_text = false ->
  classify pg page_text full_domain =
  match stage2 pg full_domain initial with
  | Ok st =>
      match is_available st with
      | None => page_fallback page_text full_domain st
      | Some _ => st
      end
  | Raise _ => except_fallback page_text initial
  end.
Proof.
  intros Hn. unfold classify.
  rewrite (taken_scan_miss _ _ _ Hn). simpl. unfold targeted.
  destruct (stage2 pg full_domain initial); reflexivity.
Qed.

Lemma classify_taken (pg : Page) (page_text full_domain : string) :
  any_in taken_indicators page_text = true ->
  classify pg page_text full_domain = Taken.
Proof.
  intros Ht. unfold classify. now rewrite (taken_scan_hit _ _ _ Ht).
Qed.

Lemma page_fallback_settled (page_text full_domain : string) :
  settled (page_fallback page_text full_domain initial).
Proof.
  unfold page_fallback.
  repeat match goal with
         | |- context [if ?c then _ else _] => destruct c
         end; auto with verdicts.
Qed.

Lemma except_fallback_settled (page_text : string) :
  settled (except_fallback page_text initial).
Proof.
  unfold except_fallback.
  repeat match goal with
         | |- context [if ?c then _ else _] => destruct c
         end; auto with verdicts.
Qed.

Lemma classify_settled (pg : Page) (page_text full_domain : string) :
  settled (classify pg page_text full_domain).
Proof.
  destruct (any_in taken_indicators page_text) eqn:Ht.
  - rewrite (classify_taken _ _ _ Ht). constructor.
  - rewrite (classify_not_taken _ _ _ Ht).
    destruct (stage2 pg full_domain initial) as [st | e] eqn:E2.
    + destruct (stage2_cases _ _ _ E2) as [-> | [-> | ->]]; simpl;
        auto using page_fallback_settled with verdicts.
    + apply except_fallback_settled.
Qed.

(** ** One query: the properties *)

Section Query.

Context {B : Type} `{WebDriver B}.

Lemma check_fetched (src : script) (driver driver' : B)
    (domain_name extension page_text : string) :
  fetch src driver (domain_name ++ extension) = (Ok page_text, driver') ->
  check_domain_availability src driver domain_name extension =
  (classified domain_name extension
     (classify (page driver') page_text (domain_name ++ extension)),
   driver').
Proof.
  intros F. unfold check_domain_availability. now rewrite F.
Qed.

Lemma check_raised (src : script) (driver driver' : B)
    (domain_name extension : string) (e : exn) :
  fetch src driver (domain_name ++ extension) = (Raise e, driver') ->
  check_domain_availability src driver domain_name extension =
  (errored domain_name extension (error_text src e), driver').
Proof.
  intros F. unfold check_domain_availability. now rewrite F.
Qed.

(** C1.  When the lowered page text holds a taken indicator, the query is
    answered Taken: [Available] is "No" and [Status] is "Taken", whatever
    available indicators the text holds and whatever the page's elements
    are. *)
Theorem taken_indicator_gives_Taken (src : script) (driver driver' : B)
    (domain_name extension page_text : string) :
  fetch src driver (domain_name ++ extension) = (Ok page_text, driver') ->
  any_in taken_indicators page_text = true ->
  let r := fst (check_domain_availability src driver domain_name extension) in
  classify (page driver') page_text (domain_name ++ extension) = Taken
  /\ Available r = "No" /\ Status r = "Taken".
Proof.
  intros F Ht r. subst r.
  rewrite (check_fetched _ _ _ _ _ _ F), (classify_taken _ _ _ Ht).
  repeat split.
Qed.

(** C2, as amended.  A query is never answered Available when the lowered
    page text holds a taken indicator: that test comes before every test
    for an available indicator.  On the text inspected for an element (its
    ancestor's text or its own) the order is the other way round: a text
    with an available indicator makes the loop body assign Available,
    whether or not it holds a taken indicator too. *)
Theorem taken_first_on_page_available_first_on_element
    (src : script) (driver driver' : B)
    (domain_name extension page_text : string) :
  fetch src driver (domain_name ++ extension) = (Ok page_text, driver') ->
  any_in taken_indicators page_text = true ->
  Available (fst (check_domain_availability src driver domain_name extension))
    <> "Yes"
  /\ forall (element : WebElement) (inspected : string),
       inspected_text element = Ok inspected ->
       any_in available_indicators inspected = true ->
       element_body element = Ok (Some Available_).
Proof.
  intros F Ht. split.
  - rewrite (check_fetched _ _ _ _ _ _ F), (classify_taken _ _ _ Ht).
    simpl. discriminate.
  - intros element inspected Ei Ha.
    rewrite element_body_inspected, Ei. simpl.
    unfold inspect. now rewrite Ha.
Qed.

(** C3, as amended.  When the lowered page text holds no taken indicator,
    holds an available indicator and holds the full domain, the query is
    answered Available, unless the element scan assigned Taken, and then it
    is answered Taken: the scan met an element whose inspected text holds a
    taken indicator and no available indicator. *)
Theorem available_unless_element_scan_Taken (src : script) (driver driver' : B)
    (domain_name extension page_text : string) :
  fetch src driver (domain_name ++ extension) = (Ok page_text, driver') ->
  any_in taken_indicators page_text = false ->
  any_in available_indicators page_text = true ->
  is_in (domain_name ++ extension) page_text = true ->
  let r := fst (check_domain_availability src driver domain_name extension) in
  let scan := stage2 (page driver') (domain_name ++ extension) initial in
  (scan <> Ok Taken -> Available r = "Yes" /\ Status r = "Available")
  /\ (scan = Ok Taken ->
      (Available r = "No" /\ Status r = "Taken")
      /\ exists elements element inspected,
           find_elements (page driver') (xpath (domain_name ++ extension))
           = Ok elements
           /\ In element elements
           /\ inspected_text element = Ok inspected
           /\ any_in available_indicators inspected = false
           /\ any_in taken_indicators inspected = true).
Proof.
  intros F Ht Ha Hd r scan. subst r scan.
  rewrite (check_fetched _ _ _ _ _ _ F), (classify_not_taken _ _ _ Ht).
  destruct (stage2 (page driver') (domain_name ++ extension) initial)
    as [st | e] eqn:E2.
  - destruct (stage2_cases _ _ _ E2) as [-> | [-> | ->]]; simpl.
    + unfold page_fallback. rewrite Ha, Hd.
      split; [intros _; now split | discriminate].
    + split; [intros N; now elim N | intros _; split; [now split |]].
      unfold stage2 in E2.
      destruct (find_elements (page driver')
                  (xpath (domain_name ++ extension))) as [els | e];
        simpl in E2; [| discriminate].
      destruct (element_scan_Taken_source _ E2) as (el & t & Hrest).
      exists els, el, t. auto.
    + split; [intros _; now split | discriminate].
  - unfold except_fallback. rewrite Ha.
    split; [intros _; now split | discriminate].
Qed.

(** C4, as amended.  When the lowered page text holds no indicator of
    either family, the answer is what the element scan assigned: Unknown
    with status "Unknown" when the scan assigned nothing or raised, and
    otherwise the verdict the scan drew from an element's text. *)
Theorem no_page_indicator_leaves_element_scan (src : script)
    (driver driver' : B) (domain_name extension page_text : string) :
  fetch src driver (domain_name ++ extension) = (Ok page_text, driver') ->
  any_in taken_indicators page_text = false ->
  any_in available_indicators page_text = false ->
  fst (check_domain_availability src driver domain_name extension) =
  classified domain_name extension
    (try_except (stage2 (page driver') (domain_name ++ extension) initial)
                (fun _ => initial)).
Proof.
  intros F Ht Ha.
  rewrite (check_fetched _ _ _ _ _ _ F), (classify_not_taken _ _ _ Ht).
  simpl. f_equal.
  assert (Hf : page_fallback page_text (domain_name ++ extension) initial
               = initial).
  { unfold page_fallback. rewrite Ha.
    destruct (is_in "domain taken" page_text
              || is_in ((domain_name ++ extension) ++ " is taken") page_text)
      eqn:Hp; [| reflexivity].
    exfalso. apply orb_true_iff in Hp.
    assert (Hc : any_in taken_indicators page_text = true);
      [| rewrite Hc in Ht; discriminate].
    apply any_in_spec. destruct Hp as [Hp | Hp].
    - exists "domain taken". split; [simpl; auto | exact Hp].
    - exists "is taken". split; [simpl; auto |].
      apply (is_in_tail ((domain_name ++ extension) ++ " ")).
      now rewrite append_assoc. }
  destruct (stage2 (page driver') (domain_name ++ extension) initial)
    as [st | e] eqn:E2; simpl.
  - destruct (stage2_cases _ _ _ E2) as [-> | [-> | ->]]; simpl;
      [exact Hf | reflexivity | reflexivity].
  - unfold except_fallback. now rewrite Ha, Ht.
Qed.

(** C5, as amended.  A [NoSuchElementException] of the ancestor lookup is
    absorbed by the loop body, which inspects the element's own text.  When
    an exception leaves the element scan (from the query for the elements or
    from the reading of a text), the handler decides on the lowered page
    text computed before: the query is answered Unknown when that text
    holds no available indicator, Available when it holds one together with
    the full domain, and never Taken. *)
Theorem element_scan_raise_uses_page_text (src : script) (driver driver' : B)
    (domain_name extension page_text : string) (e : exn) :
  fetch src driver (domain_name ++ extension) = (Ok page_text, driver') ->
  any_in taken_indicators page_text = false ->
  stage2 (page driver') (domain_name ++ extension) initial = Raise e ->
  let r := fst (check_domain_availability src driver domain_name extension) in
  (any_in available_indicators page_text = false ->
   r = classified domain_name extension initial)
  /\ (any_in available_indicators page_text = true ->
      is_in (domain_name ++ extension) page_text = true ->
      r = classified domain_name extension Available_)
  /\ Available r <> "No"
  /\ forall (element : WebElement) (msg : string),
       find_element element = Raise (NoSuchElementException msg) ->
       element_body element
       = (element_text <- text element ;; Ok (inspect (lower element_text))).
Proof.
  intros F Ht E2 r. subst r.
  rewrite (check_fetched _ _ _ _ _ _ F), (classify_not_taken _ _ _ Ht), E2.
  simpl. unfold except_fallback. rewrite Ht.
  repeat split.
  - now intros ->.
  - now intros ->.
  - destruct (any_in available_indicators page_text); discriminate.
  - intros element msg En. unfold element_body. now rewrite En.
Qed.

End Query.

(** ** The batch: the properties *)

Lemma count_available_partition (results : list CheckResult) :
  Forall tri_state results ->
  count_available "Yes" results + count_available "No" results
  + count_available "Unknown" results = length results.
Proof.
  unfold count_available.
  induction 1 as [|r rs Hr _ IH]; [reflexivity |].
  simpl. destruct Hr as [E | [E | E]]; rewrite E; simpl; lia.
Qed.

Lemma answers_lists (qs : list (string * string)) (rs : list CheckResult) :
  Forall2 answers qs rs ->
  map query rs = qs
  /\ Forall (fun r => Full_Domain r = Domain_Name r ++ Extension r) rs
  /\ Forall tri_state rs.
Proof.
  induction 1 as [|q r qs rs [Hq [Hf Ht]] _ [IH1 [IH2 IH3]]].
  - repeat split; constructor.
  - repeat split; simpl.
    + now rewrite Hq, IH1.
    + constructor; [| exact IH2].
      rewrite Hf. unfold query in Hq. now rewrite <- Hq.
    + constructor; assumption.
Qed.

Lemma filter_nonempty_normalized (names : list string) :
  filter (fun s => negb (is_empty s)) (normalized_base_names names)
  = normalized_base_names names.
Proof.
  unfold normalized_base_names.
  induction (map (fun s => lower (strip s)) names) as [|n ns IH];
    [reflexivity |].
  simpl. destruct (is_empty n) eqn:E; simpl; [exact IH |].
  now rewrite E, IH.
Qed.

(** The names the web application reads are the normalized base names. *)
Lemma input_names_normalized (lines : list string) :
  app.input_names lines = normalized_base_names lines.
Proof.
  unfold app.input_names, normalized_base_names.
  induction lines as [|l ls IH]; [reflexivity |].
  simpl. rewrite is_empty_lower.
  destruct (is_empty (strip l)); simpl; now rewrite IH.
Qed.

Section Batch.

Context {B : Type} `{WebDriver B}.

Lemma check_answers (src : script) (driver : B) (domain_name extension : string) :
  answers (domain_name, extension)
          (fst (check_domain_availability src driver domain_name extension)).
Proof.
  unfold check_domain_availability.
  destruct (fetch src driver (domain_name ++ extension)) as [[page_text | e] d'];
    simpl; repeat split; unfold tri_state; simpl; [| auto].
  destruct (classify_settled (page d') page_text (domain_name ++ extension));
    simpl; auto.
Qed.

Lemma checker_extension_loop_answers (extensions : list string) :
  forall (driver : B) (domain_name : string),
    Forall2 answers (map (fun e => (domain_name, e)) extensions)
      (fst (fst (domain_checker.extension_loop driver domain_name extensions))).
Proof.
  induction extensions as [|e es IH]; intros driver d; simpl; [constructor |].
  pose proof (check_answers domain_checker_py driver d e) as A.
  destruct (check_domain_availability domain_checker_py driver d e) as [r d1].
  specialize (IH d1 d).
  destruct (domain_checker.extension_loop d1 d es) as [[rs pr] d2].
  simpl in *. now constructor.
Qed.

Lemma checker_domain_loop_answers (domain_names extensions : list string) :
  forall driver : B,
    Forall2 answers
      (list_prod (normalized_base_names domain_names) extensions)
      (fst (fst (domain_checker.domain_loop driver domain_names extensions))).
Proof.
  unfold normalized_base_names.
  induction domain_names as [|n ns IH]; intros driver; simpl; [constructor |].
  destruct (is_empty (lower (strip n))) eqn:E; simpl; [apply IH |].
  pose proof (checker_extension_loop_answers extensions driver
                (lower (strip n))) as A.
  destruct (domain_checker.extension_loop driver (lower (strip n)) extensions)
    as [[rs1 pr1] d1].
  specialize (IH d1).
  destruct (domain_checker.domain_loop d1 ns extensions) as [[rs2 pr2] d2].
  simpl in *. now apply Forall2_app.
Qed.

Lemma app_extension_loop_answers (extensions : list string) :
  forall (driver : B) (domain_name : string),
    Forall2 answers (map (fun e => (domain_name, e)) extensions)
      (fst (app.extension_loop driver domain_name extensions)).
Proof.
  induction extensions as [|e es IH]; intros driver d; simpl; [constructor |].
  pose proof (check_answers app_py driver d e) as A.
  destruct (check_domain_availability app_py driver d e) as [r d1].
  specialize (IH d1 d).
  destruct (app.extension_loop d1 d es) as [rs d2].
  simpl in *. now constructor.
Qed.

Lemma app_domain_loop_answers (domain_names extensions : list string) :
  forall driver : B,
    Forall2 answers
      (list_prod (filter (fun s => negb (is_empty s)) domain_names) extensions)
      (fst (app.domain_loop driver domain_names extensions)).
Proof.
  induction domain_names as [|n ns IH]; intros driver; simpl; [constructor |].
  destruct (is_empty n) eqn:E; simpl; [apply IH |].
  pose proof (app_extension_loop_answers extensions driver n) as A.
  destruct (app.extension_loop driver n extensions) as [rs1 d1].
  specialize (IH d1).
  destruct (app.domain_loop d1 ns extensions) as [rs2 d2].
  simpl in *. now apply Forall2_app.
Qed.

End Batch.

(** The two phrases of the page fallback are covered by the taken
    indicators. *)
Lemma taken_phrase_is_indicator (page_text full_domain : string) :
  is_in "domain taken" page_text
  || is_in (full_domain ++ " is taken") page_text = true ->
  any_in taken_indicators page_text = true.
Proof.
  intros Hp. apply orb_true_iff in Hp. apply any_in_spec.
  destruct Hp as [Hp | Hp].
  - exists "domain taken". split; [simpl; auto | exact Hp].
  - exists "is taken". split; [simpl; auto |].
    apply (is_in_tail (full_domain ++ " ")). now rewrite append_assoc.
Qed.

(** C9.  A page text that holds "domain taken" or the full domain followed
    by " is taken" holds a taken indicator, so the first scan has assigned
    Taken; when the first scan assigned nothing the page fallback never
    assigns Taken, and a Taken verdict of the classifier comes from the
    first scan or from the element scan. *)
Theorem page_fallback_never_assigns_Taken (pg : Page)
    (page_text full_domain : string) :
  (is_in "domain taken" page_text
   || is_in (full_domain ++ " is taken") page_text = true ->
   any_in taken_indicators page_text = true
   /\ taken_scan taken_indicators page_text initial = Taken)
  /\ (is_available (taken_scan taken_indicators page_text initial) = None ->
      page_fallback page_text full_domain initial <> Taken)
  /\ (classify pg page_text full_domain = Taken ->
      any_in taken_indicators page_text = true
      \/ stage2 pg full_domain initial = Ok Taken).
Proof.
  split; [| split].
  - intros Hp. pose proof (taken_phrase_is_indicator _ _ Hp) as Ht.
    split; [exact Ht | now apply taken_scan_hit].
  - intros Hn.
    destruct (any_in taken_indicators page_text) eqn:Ht.
    + rewrite (taken_scan_hit _ _ _ Ht) in Hn. discriminate.
    + unfold page_fallback.
      destruct (any_in available_indicators page_text).
      * destruct (is_in full_domain page_text); discriminate.
      * destruct (is_in "domain taken" page_text
                  || is_in (full_domain ++ " is taken") page_text) eqn:Hp;
          [| discriminate].
        rewrite (taken_phrase_is_indicator _ _ Hp) in Ht. discriminate.
  - intros Hc.
    destruct (any_in taken_indicators page_text) eqn:Ht; [now left | right].
    rewrite (classify_not_taken _ _ _ Ht) in Hc.
    destruct (stage2 pg full_domain initial) as [st | e] eqn:E2.
    + destruct (stage2_cases _ _ _ E2) as [-> | [-> | ->]]; simpl in Hc;
        [| reflexivity | discriminate].
      exfalso. unfold page_fallback in Hc.
      destruct (any_in available_indicators page_text).
      * destruct (is_in full_domain page_text); discriminate.
      * destruct (is_in "domain taken" page_text
                  || is_in (full_domain ++ " is taken") page_text) eqn:Hp;
          [| discriminate].
        rewrite (taken_phrase_is_indicator _ _ Hp) in Ht. discriminate.
    + exfalso. unfold except_fallback in Hc. rewrite Ht in Hc.
      destruct (any_in available_indicators page_text); discriminate.
Qed.

Section Run.

Context {B : Type} `{WebDriver B}.

(** C6, as amended.  When the fetch of a query raises, its result has
    [Available] "Unknown" and [Status] "Error: " followed by the message of
    the failure: the whole message in the command-line checker, its first
    fifty characters in the web application.  The classifier is not run,
    and the loop goes on with the remaining extensions from the session the
    failed fetch left. *)
Theorem fetch_failure_gives_Error (src : script) (driver driver' : B)
    (domain_name extension : string) (rest : list string) (e : exn) :
  fetch src driver (domain_name ++ extension) = (Raise e, driver') ->
  check_domain_availability src driver domain_name extension =
  (errored domain_name extension
     (match src with
      | domain_checker_py => str e
      | app_py => take 50 (str e)
      end),
   driver')
  /\ match src with
     | domain_checker_py =>
         fst (fst (domain_checker.extension_loop
                     driver domain_name (extension :: rest)))
         = errored domain_name extension (str e)
           :: fst (fst (domain_checker.extension_loop driver' domain_name rest))
     | app_py =>
         fst (app.extension_loop driver domain_name (extension :: rest))
         = errored domain_name extension (take 50 (str e))
           :: fst (app.extension_loop driver' domain_name rest)
     end.
Proof.
  intros F. pose proof (check_raised _ _ _ _ _ _ F) as C.
  split; [destruct src; exact C |].
  destruct src; simpl; rewrite C; simpl.
  - now destruct (domain_checker.extension_loop driver' domain_name rest)
      as [[rs pr] d2].
  - now destruct (app.extension_loop driver' domain_name rest) as [rs d2].
Qed.

(** C7.  Once the browser session is set up, a batch with [n] normalized
    base names and [m] extensions gives [n * m] results, one per pair, base
    name by base name and extension by extension within a base name,
    whatever fetches fail: in [check_domains] of the command-line checker
    and in the loop of the web application on the names it read (the loop
    its "Check Domains" button runs when there is a name and an
    extension). *)
Theorem batch_is_the_cross_product (chrome : outcome B) (driver driver' : B)
    (u : unit) (base_names extensions : list string) :
  chrome = Ok driver ->
  implicitly_wait 5 driver = (Ok u, driver') ->
  let names := normalized_base_names base_names in
  let checker :=
    fst (domain_checker.check_domains chrome base_names extensions) in
  let web :=
    fst (app.domain_loop driver' (app.input_names base_names) extensions) in
  app.init_driver chrome = Some driver'
  /\ (names <> [] -> extensions <> [] ->
      app.check_button chrome (app.input_names base_names) extensions
      = Some web)
  /\ (map query checker = list_prod names extensions
      /\ length checker = length names * length extensions
      /\ Forall (fun r => Full_Domain r = Domain_Name r ++ Extension r) checker)
  /\ (map query web = list_prod names extensions
      /\ length web = length names * length extensions
      /\ Forall (fun r => Full_Domain r = Domain_Name r ++ Extension r) web).
Proof.
  intros -> W names checker web. subst names checker web.
  split; [unfold app.init_driver; now rewrite W |].
  split; [| split].
  - intros Hn He. unfold app.check_button, app.init_driver.
    rewrite input_names_normalized, W.
    destruct (normalized_base_names base_names); [now elim Hn |].
    destruct extensions; [now elim He | reflexivity].
  - unfold domain_checker.check_domains. rewrite W.
    pose proof (checker_domain_loop_answers base_names extensions driver') as A.
    destruct (domain_checker.domain_loop driver' base_names extensions)
      as [[rs pr] d2]; simpl in *.
    destruct (answers_lists _ _ A) as [Q [F _]].
    repeat split; [exact Q | | exact F].
    now rewrite <- (Forall2_length A), length_prod.
  - pose proof (app_domain_loop_answers (app.input_names base_names)
                  extensions driver') as A.
    rewrite input_names_normalized, filter_nonempty_normalized in A.
    rewrite input_names_normalized.
    destruct (answers_lists _ _ A) as [Q [F _]].
    repeat split; [exact Q | | exact F].
    now rewrite <- (Forall2_length A), length_prod.
Qed.

(** Every line the loops of [check_domains] print opens with "Checking "
    or with "  Result: ". *)
Lemma checker_extension_loop_lines (extensions : list string) :
  forall (driver : B) (domain_name line : string),
    In line (snd (fst (domain_checker.extension_loop driver domain_name
                         extensions))) ->
    exists rest, line = "Checking " ++ rest \/ line = "  Result: " ++ rest.
Proof.
  induction extensions as [|e es IH]; intros driver d line; simpl;
    [intros [] |].
  destruct (check_domain_availability domain_checker_py driver d e) as [r d1].
  specialize (IH d1 d line).
  destruct (domain_checker.extension_loop d1 d es) as [[rs pr] d2].
  simpl in *. intros [<- | [<- | Hin]]; [eauto | eauto | auto].
Qed.

Lemma checker_domain_loop_lines (domain_names extensions : list string) :
  forall (driver : B) (line : string),
    In line (snd (fst (domain_checker.domain_loop driver domain_names
                         extensions))) ->
    exists rest, line = "Checking " ++ rest \/ line = "  Result: " ++ rest.
Proof.
  induction domain_names as [|n ns IH]; intros driver line; simpl;
    [intros [] |].
  destruct (is_empty (lower (strip n))); [apply IH |].
  pose proof (checker_extension_loop_lines extensions driver
                (lower (strip n)) line) as E.
  destruct (domain_checker.extension_loop driver (lower (strip n)) extensions)
    as [[rs1 pr1] d1].
  specialize (IH d1 line).
  destruct (domain_checker.domain_loop d1 ns extensions) as [[rs2 pr2] d2].
  simpl in *. intros Hin. apply in_app_or in Hin as [Hin | Hin]; auto.
Qed.

(** What [init_driver] returns is the driver the button works with. *)
Lemma init_driver_shown_driver (chrome : outcome B) :
  fst (init_driver_shown chrome) = app.init_driver chrome.
Proof.
  unfold init_driver_shown, app.init_driver.
  destruct chrome as [driver | e]; [| reflexivity].
  now destruct (implicitly_wait 5 driver) as [[u | e] d'].
Qed.

(** C8.  When the browser session cannot be set up (the constructor of the
    driver or [implicitly_wait] raises [e]), [check_domains] runs no query
    and returns no result, and it prints the three lines of its handler,
    the first being "Error setting up browser: " followed by the message:
    the failure is not turned into results with [Available] "Unknown".  A
    run whose browser was set up never prints that line, so the report
    tells the two apart.  [save_to_csv] writes nothing for an empty result
    list, so [main] leaves no file, and its output is the banner, the
    heading, the three lines, "No results to save." and a summary of
    zeros.  In the web application [init_driver] shows "Error initializing
    browser: " with the message, and the button returns before its loop. *)
Theorem setup_failure_aborts_the_run (chrome : outcome B) (e : exn)
    (name : string) (names extensions : list string) (filename : string) :
  (chrome = Raise e
   \/ exists driver, chrome = Ok driver
                     /\ fst (implicitly_wait 5 driver) = Raise e) ->
  domain_checker.check_domains chrome (name :: names) extensions
  = ([], domain_checker.setup_error e)
  /\ domain_checker.save_to_csv [] filename = (None, ["No results to save."])
  /\ domain_checker.csv_file (domain_checker.main chrome (name :: names))
     = None
  /\ domain_checker.stdout (domain_checker.main chrome (name :: names))
     = concat [ domain_checker.banner;
                domain_checker.heading (name :: names);
                domain_checker.setup_error e;
                ["No results to save."];
                domain_checker.summary [] ]
  /\ app.check_button chrome (name :: names) extensions = None
  /\ fst (domain_checker.check_domains chrome (name :: names) extensions)
     = []
  /\ snd (domain_checker.check_domains chrome (name :: names) extensions)
     = [ "Error setting up browser: " ++ str e;
         "Make sure you have ChromeDriver installed and in your PATH";
         "Or install it with: brew install chromedriver (on macOS)" ]
  /\ (forall (chrome' : outcome B) (driver driver' : B) (u : unit)
             (domain_names extensions' : list string) (message : string),
        chrome' = Ok driver ->
        implicitly_wait 5 driver = (Ok u, driver') ->
        ~ In ("Error setting up browser: " ++ message)
             (snd (domain_checker.check_domains chrome' domain_names
                     extensions')))
  /\ domain_checker.stdout (domain_checker.main chrome (name :: names))
     = [ "Domain Availability Checker for GoDaddy";
         "==================================================";
         nl ++ "Checking " ++ of_nat (length (name :: names))
         ++ " domain name(s) for .com, .dev, and .ai extensions...";
         "Total checks: " ++ of_nat (length (name :: names) * 3) ++ nl;
         "Error setting up browser: " ++ str e;
         "Make sure you have ChromeDriver installed and in your PATH";
         "Or install it with: brew install chromedriver (on macOS)";
         "No results to save.";
         nl ++ "==================================================";
         "Summary:";
         "Available: 0";
         "Taken: 0";
         "Unknown/Error: 0" ]
  /\ init_driver_shown chrome
     = (None,
        [ st_error ("Error initializing browser: " ++ str e);
          st_info "Make sure ChromeDriver is installed. On macOS: `brew install chromedriver`" ])
  /\ app.init_driver chrome = fst (init_driver_shown chrome).
Proof.
  intros S.
  assert (C : forall ns exts,
             domain_checker.check_domains chrome ns exts
             = ([], domain_checker.setup_error e)).
  { intros ns exts. unfold domain_checker.check_domains.
    destruct S as [-> | (driver & -> & W)]; [reflexivity |].
    destruct (implicitly_wait 5 driver) as [[u | e'] d']; simpl in W;
      [discriminate | now injection W as ->]. }
  assert (I : app.init_driver chrome = None).
  { unfold app.init_driver.
    destruct S as [-> | (driver & -> & W)]; [reflexivity |].
    destruct (implicitly_wait 5 driver) as [[u | e'] d']; simpl in W;
      [discriminate | reflexivity]. }
  assert (M : domain_checker.stdout (domain_checker.main chrome (name :: names))
              = concat [ domain_checker.banner;
                         domain_checker.heading (name :: names);
                         domain_checker.setup_error e;
                         ["No results to save."];
                         domain_checker.summary [] ]).
  { unfold domain_checker.main. now rewrite C. }
  split; [apply C |].
  split; [reflexivity |].
  split; [unfold domain_checker.main; now rewrite C |].
  split; [exact M |].
  split; [unfold app.check_button; rewrite I; now destruct extensions |].
  split; [now rewrite C |].
  split; [now rewrite C |].
  split.
  - intros chrome' driver driver' u domain_names extensions' message -> W Hin.
    unfold domain_checker.check_domains in Hin. rewrite W in Hin.
    pose proof (checker_domain_loop_lines domain_names extensions' driver'
                  ("Error setting up browser: " ++ message)) as L.
    destruct (domain_checker.domain_loop driver' domain_names extensions')
      as [[rs pr] d2].
    simpl in Hin, L. destruct (L Hin) as [rest [E | E]]; discriminate.
  - split; [rewrite M; reflexivity |].
    split; [| symmetry; apply init_driver_shown_driver].
    unfold init_driver_shown.
    destruct S as [-> | (driver & -> & W)]; [reflexivity |].
    destruct (implicitly_wait 5 driver) as [[u | e'] d']; simpl in W;
      [discriminate | now injection W as ->].
Qed.

(** C10.  The field [Available] of every result is "Yes", "No" or
    "Unknown"; when the fetch succeeded it is "Yes" exactly when [Status]
    is "Available", "No" exactly when it is "Taken" and "Unknown" exactly
    when it is "Unknown", and when the fetch raised it is "Unknown"; so the
    three counts of the summary add up to the number of results. *)
Theorem available_field_partitions_the_results (src : script) (driver : B)
    (domain_name extension : string) (chrome : outcome B)
    (domain_names extensions : list string) :
  let r := fst (check_domain_availability src driver domain_name extension) in
  let checker :=
    fst (domain_checker.check_domains chrome domain_names extensions) in
  let web := fst (app.domain_loop driver domain_names extensions) in
  tri_state r
  /\ match fst (fetch src driver (domain_name ++ extension)) with
     | Ok _ =>
         (Available r = "Yes" <-> Status r = "Available")
         /\ (Available r = "No" <-> Status r = "Taken")
         /\ (Available r = "Unknown" <-> Status r = "Unknown")
     | Raise _ => Available r = "Unknown"
     end
  /\ count_available "Yes" checker + count_available "No" checker
     + count_available "Unknown" checker = length checker
  /\ count_available "Yes" web + count_available "No" web
     + count_available "Unknown" web = length web.
Proof.
  intros r checker web. subst r checker web.
  split; [apply check_answers |].
  split; [| split].
  - unfold check_domain_availability.
    destruct (fetch src driver (domain_name ++ extension))
      as [[page_text | e] d']; simpl; [| reflexivity].
    destruct (classify_settled (page d') page_text (domain_name ++ extension));
      simpl; repeat split; intros; (reflexivity || discriminate).
  - apply count_available_partition.
    unfold domain_checker.check_domains.
    destruct chrome as [d | e]; [| constructor].
    destruct (implicitly_wait 5 d) as [[u | e] d']; [| constructor].
    pose proof (checker_domain_loop_answers domain_names extensions d') as A.
    destruct (domain_checker.domain_loop d' domain_names extensions)
      as [[rs pr] d2]; simpl in *.
    apply (answers_lists _ _ A).
  - apply count_available_partition.
    apply (answers_lists _ _
             (app_domain_loop_answers domain_names extensions driver)).
Qed.

End Run.

(** ** The theorems at work, and where the specification's claims fail *)

(** C1 on a page that says "is taken" and "Add to Cart". *)
Lemma taken_indicator_gives_Taken_witness :
  let r := fst (check_domain_availability domain_checker_py
                  (serving page_taken_with_cart) "foo" ".com") in
  any_in available_indicators
         "<p>foo.com is taken</p><button>add to cart</button>" = true
  /\ Available r = "No" /\ Status r = "Taken".
Proof.
  split; [reflexivity |].
  apply (taken_indicator_gives_Taken domain_checker_py
           (serving page_taken_with_cart) (showing page_taken_with_cart)
           "foo" ".com"
           "<p>foo.com is taken</p><button>add to cart</button>");
    reflexivity.
Defined.

(** C2 fails on a result card that reads both "is taken" and "Add to
    cart": the text inspected for the element holds a taken indicator, and
    the query is answered Available. *)
Lemma card_with_both_families_is_Available :
  let element := in_card "foo.com" "foo.com is taken Add to cart" in
  let r := fst (check_domain_availability app_py (serving page_card_both)
                  "foo" ".com") in
  inspected_text element = Ok "foo.com is taken add to cart"
  /\ any_in taken_indicators "foo.com is taken add to cart" = true
  /\ any_in available_indicators "foo.com is taken add to cart" = true
  /\ find_elements page_card_both (xpath "foo.com") = Ok [element]
  /\ Available r = "Yes" /\ Status r = "Available".
Proof. repeat split. Qed.

Lemma taken_first_on_page_available_first_on_element_witness :
  Available (fst (check_domain_availability app_py
                    (serving page_taken_with_cart) "foo" ".com")) <> "Yes"
  /\ element_body (in_card "foo.com" "foo.com is taken Add to cart")
     = Ok (Some Available_).
Proof.
  destruct (taken_first_on_page_available_first_on_element app_py
              (serving page_taken_with_cart) (showing page_taken_with_cart)
              "foo" ".com"
              "<p>foo.com is taken</p><button>add to cart</button>")
    as [P E]; [reflexivity | reflexivity |].
  split; [exact P |].
  apply (E _ "foo.com is taken add to cart"); reflexivity.
Defined.

(** C3 fails on a page whose text holds "add to cart" and the full domain
    and no taken indicator, while the card of the name reads "is taken":
    the query is answered Taken. *)
Lemma card_taken_beats_page_offer :
  let page_text :=
    "<div class='result'><span>foo.com</span> is <b>taken</b></div><button>add to cart</button>" in
  let r := fst (check_domain_availability app_py (serving page_card_taken)
                  "foo" ".com") in
  fst (fetch app_py (serving page_card_taken) "foo.com") = Ok page_text
  /\ any_in taken_indicators page_text = false
  /\ any_in available_indicators page_text = true
  /\ is_in "foo.com" page_text = true
  /\ Available r = "No" /\ Status r = "Taken" /\ Available r <> "Yes".
Proof. repeat split. discriminate. Qed.

Lemma available_unless_element_scan_Taken_witness :
  (let r := fst (check_domain_availability domain_checker_py
                   (serving page_offer) "bar" ".com") in
   Available r = "Yes" /\ Status r = "Available")
  /\ (let r := fst (check_domain_availability domain_checker_py
                      (serving page_card_taken) "foo" ".com") in
      Available r = "No" /\ Status r = "Taken").
Proof.
  split.
  - apply (available_unless_element_scan_Taken domain_checker_py
             (serving page_offer) (showing page_offer) "bar" ".com"
             "<p>bar.com</p><button>add to cart</button>");
      (reflexivity || discriminate).
  - apply (available_unless_element_scan_Taken domain_checker_py
             (serving page_card_taken) (showing page_card_taken) "foo" ".com"
             "<div class='result'><span>foo.com</span> is <b>taken</b></div><button>add to cart</button>");
      reflexivity.
Defined.

(** C4 fails on a page whose text holds no indicator of either family,
    while the card of the name reads "Add to cart": the query is answered
    Available, not Unknown. *)
Lemma card_cart_without_page_indicator :
  let page_text :=
    "<div class='result'><span>foo.com</span><button>add <i>to</i> cart</button></div>" in
  let r := fst (check_domain_availability app_py (serving page_card_cart)
                  "foo" ".com") in
  fst (fetch app_py (serving page_card_cart) "foo.com") = Ok page_text
  /\ any_in taken_indicators page_text = false
  /\ any_in available_indicators page_text = false
  /\ Available r = "Yes" /\ Status r = "Available" /\ Status r <> "Unknown".
Proof. repeat split. discriminate. Qed.

Lemma no_page_indicator_leaves_element_scan_witness :
  fst (check_domain_availability app_py (serving page_plain) "foo" ".com")
  = classified "foo" ".com" initial
  /\ fst (check_domain_availability app_py (serving page_card_cart)
            "foo" ".com")
     = classified "foo" ".com" Available_.
Proof.
  split.
  - etransitivity;
      [ apply (no_page_indicator_leaves_element_scan app_py
                 (serving page_plain) (showing page_plain) "foo" ".com"
                 "<p>search for a domain</p>"); reflexivity
      | reflexivity ].
  - etransitivity;
      [ apply (no_page_indicator_leaves_element_scan app_py
                 (serving page_card_cart) (showing page_card_cart)
                 "foo" ".com"
                 "<div class='result'><span>foo.com</span><button>add <i>to</i> cart</button></div>");
        reflexivity
      | reflexivity ].
Defined.

(** C5 fails when the ancestor lookup raises [NoSuchElementException]: the
    element's own text is inspected, and the query is answered Available
    although the page text holds no available indicator. *)
Lemma ancestor_failure_inspects_the_element :
  let page_text :=
    "<span>foo.com <button>add <i>to</i> cart</button></span>" in
  let element := orphan "foo.com Add to cart" in
  let r := fst (check_domain_availability app_py (serving page_orphan_cart)
                  "foo" ".com") in
  fst (fetch app_py (serving page_orphan_cart) "foo.com") = Ok page_text
  /\ find_elements page_orphan_cart (xpath "foo.com") = Ok [element]
  /\ find_element element
     = Raise (NoSuchElementException "no such element")
  /\ any_in taken_indicators page_text = false
  /\ any_in available_indicators page_text = false
  /\ page_fallback page_text "foo.com" initial = initial
  /\ Available r = "Yes" /\ Status r = "Available".
Proof. repeat split. Qed.

(** When the query for the elements raises on a page that reads "add to
    cart" without the full domain, the handler answers Available, where the
    page fallback leaves Unknown. *)
Lemma handler_skips_the_full_domain :
  let page_text := "<button>add to cart</button> foo.net" in
  let r := fst (check_domain_availability app_py (serving page_query_raises)
                  "foo" ".com") in
  fst (fetch app_py (serving page_query_raises) "foo.com") = Ok page_text
  /\ stage2 page_query_raises "foo.com" initial
     = Raise (OtherException "invalid selector")
  /\ any_in available_indicators page_text = true
  /\ is_in "foo.com" page_text = false
  /\ page_fallback page_text "foo.com" initial = initial
  /\ Available r = "Yes" /\ Status r = "Available".
Proof. repeat split. Qed.

Lemma element_scan_raise_uses_page_text_witness :
  fst (check_domain_availability app_py (serving page_offer_raises)
         "foo" ".com")
  = classified "foo" ".com" Available_
  /\ element_body (orphan "foo.com Add to cart") = Ok (Some Available_).
Proof.
  destruct (element_scan_raise_uses_page_text app_py
              (serving page_offer_raises) (showing page_offer_raises)
              "foo" ".com" "<p>foo.com</p><button>add to cart</button>"
              (OtherException "invalid selector"))
    as [_ [A [_ E]]]; [reflexivity | reflexivity | reflexivity |].
  split.
  - apply A; reflexivity.
  - etransitivity;
      [ apply (E _ "no such element"); reflexivity
      | reflexivity ].
Defined.

(** C6 fails in the command-line checker: a failure message of sixty
    characters is carried whole into [Status], not cut. *)
Lemma checker_keeps_the_whole_message :
  let r := fst (check_domain_availability domain_checker_py
                  (failing (OtherException long_message)) "baz" ".dev") in
  String.length long_message = 60
  /\ Available r = "Unknown"
  /\ Status r = "Error: " ++ long_message
  /\ String.length (Status r) = 67
  /\ Status r <> "Error: " ++ take 50 long_message.
Proof. repeat split. discriminate. Qed.

Lemma fetch_failure_gives_Error_witness :
  fst (check_domain_availability app_py
         (failing (OtherException long_message)) "baz" ".dev")
  = errored "baz" ".dev"
      "timeout! timeout! timeout! timeout! timeout! timeo"
  /\ fst (app.extension_loop (failing (OtherException long_message))
            "baz" [".dev"; ".ai"])
     = [ errored "baz" ".dev"
           "timeout! timeout! timeout! timeout! timeout! timeo";
         errored "baz" ".ai"
           "timeout! timeout! timeout! timeout! timeout! timeo" ].
Proof.
  destruct (fetch_failure_gives_Error app_py
              (failing (OtherException long_message))
              (failing (OtherException long_message))
              "baz" ".dev" [".ai"] (OtherException long_message))
    as [C L]; [reflexivity |].
  split; [now rewrite C | exact L].
Defined.

(** C7 on three base names, one of them blank, and two extensions, on a
    site where every fetch fails. *)
Lemma batch_is_the_cross_product_witness :
  let down := failing (OtherException "timeout") in
  let checker :=
    fst (domain_checker.check_domains (Ok down)
           ["Foo "; "  "; "bar"] [".com"; ".ai"]) in
  normalized_base_names ["Foo "; "  "; "bar"] = ["foo"; "bar"]
  /\ map query checker
     = [("foo", ".com"); ("foo", ".ai"); ("bar", ".com"); ("bar", ".ai")]
  /\ length checker = 4
  /\ map Status checker
     = ["Error: timeout"; "Error: timeout"; "Error: timeout"; "Error: timeout"].
Proof.
  destruct (batch_is_the_cross_product
              (Ok (failing (OtherException "timeout")))
              (failing (OtherException "timeout"))
              (failing (OtherException "timeout")) tt
              ["Foo "; "  "; "bar"] [".com"; ".ai"])
    as [_ [_ [[Q [L _]] _]]]; [reflexivity | reflexivity |].
  intros down checker.
  split; [reflexivity | split; [exact Q | split; [exact L | reflexivity]]].
Defined.

(** C8 when Chrome cannot be started. *)
Lemma setup_failure_aborts_the_run_witness :
  let chrome : outcome Scripted :=
    Raise (OtherException "chromedriver not found") in
  domain_checker.check_domains chrome ["foo"] [".com"]
  = ([],
     [ "Error setting up browser: chromedriver not found";
       "Make sure you have ChromeDriver installed and in your PATH";
       "Or install it with: brew install chromedriver (on macOS)" ])
  /\ domain_checker.csv_file (domain_checker.main chrome ["foo"]) = None
  /\ In "Error setting up browser: chromedriver not found"
        (domain_checker.stdout (domain_checker.main chrome ["foo"]))
  /\ ~ In "Error setting up browser: chromedriver not found"
          (domain_checker.stdout
             (domain_checker.main (Ok (serving page_plain)) ["  "]))
  /\ init_driver_shown chrome
     = (None,
        [ st_error "Error initializing browser: chromedriver not found";
          st_info "Make sure ChromeDriver is installed. On macOS: `brew install chromedriver`" ]).
Proof.
  destruct (setup_failure_aborts_the_run
              (Raise (OtherException "chromedriver not found") : outcome Scripted)
              (OtherException "chromedriver not found")
              "foo" [] [".com"] "domain_check_results.csv")
    as [C [_ [F [_ [_ [_ [_ [_ [M [I _]]]]]]]]]]; [left; reflexivity |].
  intros chrome.
  split; [exact C |].
  split; [exact F |].
  split; [unfold chrome; rewrite M; simpl; auto 8 |].
  split; [| exact I].
  simpl. intros [E | [E | [E | [E | [E | [E | [E | [E | [E | [E | []]]]]]]]]]];
    discriminate.
Defined.

(** C9 on a page text that reads "foo.com is taken". *)
Lemma page_fallback_never_assigns_Taken_witness :
  taken_scan taken_indicators "<p>foo.com is taken</p>" initial = Taken
  /\ page_fallback "<p>domain tak en</p>" "foo.com" initial <> Taken.
Proof.
  split.
  - apply (proj1 (page_fallback_never_assigns_Taken page_plain
                    "<p>foo.com is taken</p>" "foo.com")).
    reflexivity.
  - apply (proj1 (proj2 (page_fallback_never_assigns_Taken page_plain
                           "<p>domain tak en</p>" "foo.com"))).
    reflexivity.
Defined.

(** ** More on strings *)

Lemma lower_app (a b : string) : lower (a ++ b) = lower a ++ lower b.
Proof.
  induction a as [|c a IH]; simpl; [reflexivity | now rewrite IH].
Qed.

Lemma lower_char_idem (c : ascii) : lower_char (lower_char c) = lower_char c.
Proof. destruct c as [[] [] [] [] [] [] [] []]; reflexivity. Qed.

Lemma isspace_lower_char (c : ascii) : isspace (lower_char c) = isspace c.
Proof. destruct c as [[] [] [] [] [] [] [] []]; reflexivity. Qed.

Lemma lower_idem (s : string) : lower (lower s) = lower s.
Proof.
  induction s as [|c s IH]; simpl; [reflexivity |].
  now rewrite lower_char_idem, IH.
Qed.

(** A text that holds [x] holds, once lowered, [x] lowered. *)
Lemma is_in_lower (x s : string) :
  is_in x s = true -> is_in (lower x) (lower s) = true.
Proof.
  rewrite !is_in_spec. intros (pre & post & ->).
  exists (lower pre), (lower post). now rewrite !lower_app.
Qed.

Lemma length_take (n : nat) (s : string) : String.length (take n s) <= n.
Proof.
  revert s; induction n as [|n IH]; intros [|c s]; simpl; try lia.
  specialize (IH s). lia.
Qed.

Lemma length_append (a b : string) :
  String.length (a ++ b) = String.length a + String.length b.
Proof.
  induction a as [|c a IH]; simpl; [reflexivity | now rewrite IH].
Qed.

Lemma lstrip_idem (s : string) : lstrip (lstrip s) = lstrip s.
Proof.
  induction s as [|c s IH]; simpl; [reflexivity |].
  destruct (isspace c) eqn:E; [exact IH |]. simpl. now rewrite E.
Qed.

Lemma rstrip_idem (s : string) : rstrip (rstrip s) = rstrip s.
Proof.
  induction s as [|c s IH]; simpl; [reflexivity |].
  destruct (rstrip s) as [|a k] eqn:E.
  - destruct (isspace c) eqn:Ec; simpl; [reflexivity | now rewrite Ec].
  - change (rstrip (String c (String a k))) with
      (match rstrip (String a k) with
       | EmptyString =>
           if isspace c then EmptyString else String c EmptyString
       | kept => String c kept
       end).
    now rewrite IH.
Qed.

Lemma lstrip_opens (s : string) : opens_unspaced (lstrip s).
Proof.
  induction s as [|c s IH]; simpl; [exact I |].
  destruct (isspace c) eqn:E; [exact IH | exact E].
Qed.

Lemma rstrip_opens (s : string) : opens_unspaced s -> opens_unspaced (rstrip s).
Proof.
  destruct s as [|c s]; simpl; [auto |]. intros E.
  destruct (rstrip s); [now rewrite E | exact E].
Qed.

Lemma lstrip_opened (s : string) : opens_unspaced s -> lstrip s = s.
Proof.
  destruct s as [|c s]; simpl; [reflexivity | now intros ->].
Qed.

(** [strip] changes nothing on what it has returned. *)
Lemma strip_idem (s : string) : strip (strip s) = strip s.
Proof.
  unfold strip.
  rewrite (lstrip_opened (rstrip (lstrip s)))
    by apply rstrip_opens, lstrip_opens.
  apply rstrip_idem.
Qed.

Lemma lstrip_lower (s : string) : lstrip (lower s) = lower (lstrip s).
Proof.
  induction s as [|c s IH]; simpl; [reflexivity |].
  rewrite isspace_lower_char. now destruct (isspace c).
Qed.

Lemma rstrip_lower (s : string) : rstrip (lower s) = lower (rstrip s).
Proof.
  induction s as [|c s IH]; simpl; [reflexivity |].
  rewrite IH, isspace_lower_char.
  destruct (rstrip s); simpl; [now destruct (isspace c) | reflexivity].
Qed.

Lemma strip_lower (s : string) : strip (lower s) = lower (strip s).
Proof. unfold strip. now rewrite lstrip_lower, rstrip_lower. Qed.

(** The normal form of a base name is its own normal form. *)
Lemma normal_form_idem (s : string) :
  lower (strip (lower (strip s))) = lower (strip s).
Proof. now rewrite strip_lower, strip_idem, lower_idem. Qed.

(** ** More on the classifier *)

(** The classifier comes down to four cases.  A taken indicator in the page
    text gives Taken.  Otherwise a verdict of the element scan stands.
    Otherwise, when the scan assigned nothing, the page gives Available if
    it holds an available indicator and the full domain; when the scan
    raised, if it holds an available indicator.  Everything else is
    Unknown; the two later tests for Taken on the page text never fire. *)
Theorem classify_in_four_cases (pg : Page) (page_text full_domain : string) :
  classify pg page_text full_domain =
  if any_in taken_indicators page_text then Taken
  else
    match stage2 pg full_domain initial with
    | Ok ((Some _, _) as st) => st
    | Ok (None, _) =>
        if any_in available_indicators page_text
           && is_in full_domain page_text
        then Available_ else initial
    | Raise _ =>
        if any_in available_indicators page_text then Available_ else initial
    end.
Proof.
  destruct (any_in taken_indicators page_text) eqn:Ht;
    [now apply classify_taken |].
  rewrite (classify_not_taken _ _ _ Ht).
  destruct (stage2 pg full_domain initial) as [st | e] eqn:E2.
  - destruct (stage2_cases _ _ _ E2) as [-> | [-> | ->]]; simpl;
      [| reflexivity | reflexivity].
    unfold page_fallback.
    destruct (any_in available_indicators page_text); simpl.
    + now destruct (is_in full_domain page_text).
    + destruct (is_in "domain taken" page_text
                || is_in (full_domain ++ " is taken") page_text) eqn:Hp;
        [| reflexivity].
      rewrite (taken_phrase_is_indicator _ _ Hp) in Ht. discriminate.
  - unfold except_fallback. rewrite Ht.
    now destruct (any_in available_indicators page_text).
Qed.

(** The element loop stops at the first element whose inspection settles a
    verdict or raises: the elements after it are not looked at, and an
    exception before any verdict ends the loop without one. *)
Theorem element_scan_stops_at_first (before after : list WebElement)
    (element : WebElement) (st : verdict) :
  Forall (fun el => element_body el = Ok None) before ->
  element_scan (before ++ element :: after) st =
  match element_body element with
  | Ok (Some found) => Ok found
  | Ok None => element_scan after st
  | Raise e => Raise e
  end.
Proof.
  induction 1 as [|el before Hel _ IH]; simpl.
  - now destruct (element_body element) as [[v |] | e].
  - rewrite Hel. simpl. exact IH.
Qed.

Section QueryMore.

Context {B : Type} `{WebDriver B}.

(** The indicators are looked for whatever the case of the page source: a
    page whose source holds a taken indicator written in any mix of upper
    and lower case is answered Taken. *)
Theorem taken_indicator_in_any_case (src : script) (driver driver' : B)
    (u : unit) (domain_name extension source heading written : string) :
  get (search_url (domain_name ++ extension)) driver = (Ok u, driver') ->
  page_source (page driver') = Ok source ->
  title (page driver') = Ok heading ->
  In (lower written) taken_indicators ->
  is_in written source = true ->
  fst (check_domain_availability src driver domain_name extension)
  = classified domain_name extension Taken.
Proof.
  intros G S T Hin Hw.
  assert (F : fetch src driver (domain_name ++ extension)
              = (Ok (lower source), driver')).
  { unfold fetch. rewrite G, S, T. now destruct src. }
  rewrite (check_fetched _ _ _ _ _ _ F). simpl. f_equal.
  apply classify_taken, any_in_spec.
  exists (lower written). split; [exact Hin | now apply is_in_lower].
Qed.

(** The two scripts leave the session in the same state and, whenever the
    command-line checker gets its page text, give the same result.  When
    the navigation or the reading of the page source raises, both report
    the error, the web application keeping fifty characters of it.  They
    part only when the title cannot be read: the command-line checker then
    reports an error where the web application classifies the page. *)
Theorem scripts_agree (driver : B) (domain_name extension : string) :
  let cli := check_domain_availability domain_checker_py driver
                                       domain_name extension in
  let web := check_domain_availability app_py driver domain_name extension in
  let full_domain := domain_name ++ extension in
  snd cli = snd web
  /\ (forall page_text,
        fst (fetch domain_checker_py driver full_domain) = Ok page_text ->
        fst cli = fst web)
  /\ (forall e,
        fst (fetch app_py driver full_domain) = Raise e ->
        fst cli = errored domain_name extension (str e)
        /\ fst web = errored domain_name extension (take 50 (str e)))
  /\ (forall page_text e,
        fst (fetch app_py driver full_domain) = Ok page_text ->
        title (page (snd web)) = Raise e ->
        fst cli = errored domain_name extension (str e)
        /\ fst web = classified domain_name extension
                       (classify (page (snd web)) page_text full_domain)).
Proof.
  unfold check_domain_availability, fetch.
  destruct (get (search_url (domain_name ++ extension)) driver)
    as [[u | e0] d']; simpl.
  - destruct (page_source (page d')) as [source | e0]; simpl.
    + destruct (title (page d')) as [t | e0]; simpl.
      * split; [reflexivity |]. split; [reflexivity |].
        split; [discriminate |]. intros page_text e _ T. discriminate.
      * split; [reflexivity |]. split; [discriminate |].
        split; [discriminate |].
        intros page_text e E T. injection E as <-. injection T as <-.
        now split.
    + split; [reflexivity |]. split; [discriminate |].
      split; [| discriminate].
      intros e E. injection E as <-. now split.
  - split; [reflexivity |]. split; [discriminate |].
    split; [| discriminate].
    intros e E. injection E as <-. now split.
Qed.

(** In the web application the status of a result is never longer than
    fifty-seven characters, whatever the browser raises. *)
Theorem web_status_is_short (driver : B) (domain_name extension : string) :
  String.length
    (Status (fst (check_domain_availability app_py driver
                    domain_name extension))) <= 57.
Proof.
  unfold check_domain_availability.
  destruct (fetch app_py driver (domain_name ++ extension))
    as [[page_text | e] d']; cbn [fst try_except bind Status error_text].
  - destruct (classify_settled (page d') page_text (domain_name ++ extension));
      unfold status, initial, Taken, Available_; simpl; lia.
  - rewrite length_append. pose proof (length_take 50 (str e)).
    change (String.length "Error: ") with 7. lia.
Qed.

End QueryMore.

(** ** More on the batch *)

Section BatchMore.

Context {B : Type} `{WebDriver B}.

Lemma checker_domain_loop_normal_forms (domain_names extensions : list string) :
  forall driver : B,
    domain_checker.domain_loop driver
      (map (fun s => lower (strip s)) domain_names) extensions
    = domain_checker.domain_loop driver domain_names extensions.
Proof.
  induction domain_names as [|n ns IH]; intros driver; simpl; [reflexivity |].
  rewrite normal_form_idem.
  destruct (is_empty (lower (strip n))); [apply IH |].
  destruct (domain_checker.extension_loop driver (lower (strip n)) extensions)
    as [[rs1 pr1] d1].
  now rewrite IH.
Qed.

(** [check_domains] does not tell a base name from its trimmed and lowered
    form: given the names already in that form it returns the same results
    and prints the same lines. *)
Theorem check_domains_ignores_case_and_margins (chrome : outcome B)
    (domain_names extensions : list string) :
  domain_checker.check_domains chrome
    (map (fun s => lower (strip s)) domain_names) extensions
  = domain_checker.check_domains chrome domain_names extensions.
Proof.
  unfold domain_checker.check_domains.
  destruct chrome as [driver | e]; [| reflexivity].
  destruct (implicitly_wait 5 driver) as [[u | e] d']; [| reflexivity].
  now rewrite checker_domain_loop_normal_forms.
Qed.

(** A batch over two lists of names one after the other is the batch over
    the first list followed by the batch over the second from the session
    the first one left: results and printed lines are appended. *)
Theorem domain_loop_splits (first second extensions : list string) :
  forall driver : B,
    domain_checker.domain_loop driver (first ++ second)%list extensions
    = let '(results1, printed1, driver1) :=
        domain_checker.domain_loop driver first extensions in
      let '(results2, printed2, driver2) :=
        domain_checker.domain_loop driver1 second extensions in
      ((results1 ++ results2)%list, (printed1 ++ printed2)%list, driver2).
Proof.
  induction first as [|n ns IH]; intros driver; simpl.
  - now destruct (domain_checker.domain_loop driver second extensions)
      as [[rs pr] d].
  - destruct (is_empty (lower (strip n))); [apply IH |].
    destruct (domain_checker.extension_loop driver (lower (strip n)) extensions)
      as [[rs1 pr1] d1].
    rewrite IH.
    destruct (domain_checker.domain_loop d1 ns extensions) as [[rs2 pr2] d2].
    destruct (domain_checker.domain_loop d2 second extensions)
      as [[rs3 pr3] d3].
    now rewrite !app_assoc.
Qed.

Lemma checker_extension_loop_printed (extensions : list string) :
  forall (driver : B) (domain_name : string),
    snd (fst (domain_checker.extension_loop driver domain_name extensions))
    = flat_map printed_for
        (fst (fst (domain_checker.extension_loop driver domain_name
                     extensions))).
Proof.
  induction extensions as [|e es IH]; intros driver d; simpl; [reflexivity |].
  pose proof (check_answers domain_checker_py driver d e) as [_ [F _]].
  destruct (check_domain_availability domain_checker_py driver d e) as [r d1].
  specialize (IH d1 d).
  destruct (domain_checker.extension_loop d1 d es) as [[rs pr] d2].
  simpl in *. unfold printed_for at 1. rewrite F, IH. simpl.
  now rewrite append_assoc.
Qed.

(** What [check_domains] prints during a run that got its browser is read
    off its results: for each result in turn, the line "Checking" with the
    full domain, then the line "Result:" with the fields [Available] and
    [Status]. *)
Theorem check_domains_prints_its_results (chrome : outcome B)
    (driver driver' : B) (u : unit) (domain_names extensions : list string) :
  chrome = Ok driver ->
  implicitly_wait 5 driver = (Ok u, driver') ->
  snd (domain_checker.check_domains chrome domain_names extensions)
  = flat_map printed_for
      (fst (domain_checker.check_domains chrome domain_names extensions)).
Proof.
  intros -> W. unfold domain_checker.check_domains. rewrite W.
  assert (L : forall d : B,
             snd (fst (domain_checker.domain_loop d domain_names extensions))
             = flat_map printed_for
                 (fst (fst (domain_checker.domain_loop d domain_names
                              extensions)))).
  { induction domain_names as [|n ns IH]; intros d; simpl; [reflexivity |].
    destruct (is_empty (lower (strip n))); [apply IH |].
    pose proof (checker_extension_loop_printed extensions d (lower (strip n)))
      as P.
    destruct (domain_checker.extension_loop d (lower (strip n)) extensions)
      as [[rs1 pr1] d1].
    specialize (IH d1).
    destruct (domain_checker.domain_loop d1 ns extensions) as [[rs2 pr2] d2].
    simpl in *. now rewrite flat_map_app, P, IH. }
  specialize (L driver').
  now destruct (domain_checker.domain_loop driver' domain_names extensions)
    as [[rs pr] d2].
Qed.

Lemma logged_check (src : script) (s : Logged B)
    (domain_name extension : string) :
  check_domain_availability src s domain_name extension
  = (fst (check_domain_availability src (session s) domain_name extension),
     {| session :=
          snd (check_domain_availability src (session s)
                 domain_name extension);
        visited := (visited s ++ [query_url (domain_name, extension)])%list |}).
Proof.
  unfold check_domain_availability, fetch, query_url. simpl.
  now destruct (get (search_url (domain_name ++ extension)) (session s))
    as [got b].
Qed.

Lemma logged_extension_loop (extensions : list string) :
  forall (s : Logged B) (domain_name : string),
    let run := domain_checker.extension_loop s domain_name extensions in
    let plain :=
      domain_checker.extension_loop (session s) domain_name extensions in
    fst run = fst plain
    /\ session (snd run) = snd plain
    /\ visited (snd run)
       = (visited s
          ++ map query_url (map (fun e => (domain_name, e)) extensions))%list.
Proof.
  induction extensions as [|e es IH]; intros s d; simpl.
  - now rewrite app_nil_r.
  - rewrite logged_check.
    destruct (check_domain_availability domain_checker_py (session s) d e)
      as [r b1]; simpl.
    specialize (IH {| session := b1;
                      visited := (visited s ++ [query_url (d, e)])%list |} d).
    simpl in IH.
    destruct (domain_checker.extension_loop
                {| session := b1;
                   visited := (visited s ++ [query_url (d, e)])%list |} d es)
      as [[rs pr] s2].
    destruct (domain_checker.extension_loop b1 d es) as [[rs' pr'] b2].
    simpl in *. destruct IH as [E1 [E2 E3]]. injection E1 as -> ->.
    repeat split; [exact E2 |]. now rewrite E3, <- app_assoc.
Qed.

(** A run navigates once for each pair of a normalized base name and an
    extension, in the order of the results, to the search address of the
    full domain, also for the pairs whose fetch fails; and keeping the
    addresses changes nothing in the results, the lines printed or the
    session. *)
Theorem one_navigation_per_query (s : Logged B)
    (domain_names extensions : list string) :
  let run := domain_checker.domain_loop s domain_names extensions in
  let plain :=
    domain_checker.domain_loop (session s) domain_names extensions in
  fst run = fst plain
  /\ session (snd run) = snd plain
  /\ visited (snd run)
     = (visited s
        ++ map query_url
             (list_prod (normalized_base_names domain_names) extensions))%list.
Proof.
  unfold normalized_base_names. revert s.
  induction domain_names as [|n ns IH]; intros s; simpl.
  - now rewrite app_nil_r.
  - destruct (is_empty (lower (strip n))) eqn:E; simpl; [apply IH |].
    pose proof (logged_extension_loop extensions s (lower (strip n))) as L.
    simpl in L.
    destruct (domain_checker.extension_loop s (lower (strip n)) extensions)
      as [[rs1 pr1] s1].
    destruct (domain_checker.extension_loop (session s) (lower (strip n))
                extensions) as [[rs1' pr1'] b1].
    simpl in L. destruct L as [L1 [L2 L3]]. injection L1 as -> ->.
    specialize (IH s1). simpl in IH. rewrite L2 in IH.
    destruct (domain_checker.domain_loop s1 ns extensions) as [[rs2 pr2] s2].
    destruct (domain_checker.domain_loop b1 ns extensions)
      as [[rs2' pr2'] b2].
    simpl in *. destruct IH as [I1 [I2 I3]]. injection I1 as -> ->.
    repeat split; [exact I2 |].
    now rewrite I3, L3, map_app, app_assoc.
Qed.

End BatchMore.

(** ** The command-line [main] *)

Lemma file_names_trimmed (lines : list string) :
  Forall trimmed (checker_input.file_names lines).
Proof.
  unfold checker_input.file_names.
  induction lines as [|l ls IH]; simpl; [constructor |].
  destruct (is_empty (strip l)) eqn:E; simpl; [exact IH |].
  constructor; [| exact IH]. split; [apply strip_idem | exact E].
Qed.

Lemma typed_names_trimmed (stdin : list string) :
  Forall trimmed (checker_input.typed_names stdin).
Proof.
  induction stdin as [|l ls IH]; simpl; [constructor |].
  destruct (is_empty (strip l)) eqn:E; [exact IH |].
  constructor; [| exact IH]. split; [apply strip_idem | exact E].
Qed.

(** Trimmed names are only lowered by the normalization: none is dropped. *)
Lemma normalized_trimmed (names : list string) :
  Forall trimmed names -> normalized_base_names names = map lower names.
Proof.
  unfold normalized_base_names.
  induction 1 as [|n ns [Hs He] _ IH]; simpl; [reflexivity |].
  now rewrite Hs, is_empty_lower, He, IH.
Qed.

Section MainMore.

Context {B : Type} `{WebDriver B}.

Lemma check_domains_length (chrome : outcome B) (driver driver' : B)
    (u : unit) (domain_names extensions : list string) :
  chrome = Ok driver ->
  implicitly_wait 5 driver = (Ok u, driver') ->
  length (fst (domain_checker.check_domains chrome domain_names extensions))
  = length (normalized_base_names domain_names) * length extensions.
Proof.
  intros -> W. unfold domain_checker.check_domains. rewrite W.
  pose proof (checker_domain_loop_answers domain_names extensions driver') as A.
  destruct (domain_checker.domain_loop driver' domain_names extensions)
    as [[rs pr] d2]; simpl in *.
  now rewrite <- (Forall2_length A), length_prod.
Qed.

(** The names [main] reads from [domains.txt] or from the keyboard are
    trimmed and not blank, so the "Total checks" it announces, three per
    name, is the number of results of a run that got its browser; with
    names given as arguments the number announced is an upper bound. *)
Theorem announced_total_checks (argv : list string)
    (domains_txt : option (list string)) (stdin : list string)
    (chrome : outcome B) (driver driver' : B) (u : unit) :
  chrome = Ok driver ->
  implicitly_wait 5 driver = (Ok u, driver') ->
  let domain_names :=
    fst (checker_input.read_domain_names argv domains_txt stdin) in
  let results :=
    fst (domain_checker.check_domains chrome domain_names
           domain_checker.default_extensions) in
  length results <= length domain_names * 3
  /\ (length argv <= 1 ->
      Forall trimmed domain_names
      /\ length results = length domain_names * 3).
Proof.
  intros C W domain_names results. subst results.
  rewrite (check_domains_length _ _ _ _ _ _ C W).
  change (length domain_checker.default_extensions) with 3.
  split.
  - apply Nat.mul_le_mono_r. unfold normalized_base_names.
    rewrite <- (length_map (fun s => lower (strip s)) domain_names).
    apply filter_length_le.
  - intros Ha.
    assert (T : Forall trimmed domain_names).
    { subst domain_names. unfold checker_input.read_domain_names.
      destruct (1 <? length argv)%nat eqn:E;
        [apply Nat.ltb_lt in E; lia |].
      destruct domains_txt as [lines |]; simpl;
        [apply file_names_trimmed | apply typed_names_trimmed]. }
    split; [exact T |].
    now rewrite (normalized_trimmed _ T), length_map.
Qed.

(** A run of [main] that got its browser writes its file exactly when some
    name is not blank; the file then holds the header and one row of five
    fields per result, three rows for each name that is not blank. *)
Theorem main_writes_one_row_per_result (argv : list string)
    (domains_txt : option (list string)) (stdin : list string)
    (chrome : outcome B) (driver driver' : B) (u : unit) :
  chrome = Ok driver ->
  implicitly_wait 5 driver = (Ok u, driver') ->
  let domain_names :=
    fst (checker_input.read_domain_names argv domains_txt stdin) in
  let results :=
    fst (domain_checker.check_domains chrome domain_names
           domain_checker.default_extensions) in
  let rows := domain_checker.fieldnames :: map domain_checker.row results in
  domain_checker.csv_file
    (checker_input.main argv domains_txt stdin chrome)
  = match normalized_base_names domain_names with
    | [] => None
    | _ :: _ => Some ("domain_check_results.csv", rows)
    end
  /\ length rows = 1 + 3 * length (normalized_base_names domain_names)
  /\ Forall (fun fields => length fields = 5) rows.
Proof.
  intros C W domain_names results rows. subst results rows.
  pose proof (check_domains_length chrome driver driver' u domain_names
                domain_checker.default_extensions C W) as L.
  change (length domain_checker.default_extensions) with 3 in L.
  split; [| split].
  - unfold checker_input.main. subst domain_names.
    destruct (checker_input.read_domain_names argv domains_txt stdin)
      as [names asked]; simpl in *.
    destruct names as [|n ns]; [reflexivity |].
    destruct (domain_checker.check_domains chrome (n :: ns)
                domain_checker.default_extensions) as [rs pr]; simpl in *.
    destruct (normalized_base_names (n :: ns)) as [|m ms];
      destruct rs as [|r rs]; simpl in *; try reflexivity; lia.
  - simpl. rewrite length_map, L. lia.
  - constructor; [reflexivity |].
    apply Forall_forall. intros fields Hin.
    apply in_map_iff in Hin as (r & <- & _). reflexivity.
Qed.

End MainMore.

(** ** The widgets of the web application *)

(** The table keeps as many rows as the ticked boxes count results: the
    three classes do not overlap. *)
Theorem filtered_length (filter_available filter_taken filter_unknown : bool)
    (results : list CheckResult) :
  length (app_widgets.filtered filter_available filter_taken filter_unknown
            results)
  = (if filter_available then count_available "Yes" results else 0)
    + (if filter_taken then count_available "No" results else 0)
    + (if filter_unknown then count_available "Unknown" results else 0).
Proof.
  unfold app_widgets.filtered, count_available.
  induction results as [|r rs IH]; simpl;
    [now destruct filter_available, filter_taken, filter_unknown |].
  destruct (String.eqb_spec (Available r) "Yes") as [E | _];
    [rewrite E |
     destruct (String.eqb_spec (Available r) "No") as [E | _];
     [rewrite E | destruct (String.eqb_spec (Available r) "Unknown")]];
    destruct filter_available, filter_taken, filter_unknown;
    simpl; rewrite IH; lia.
Qed.

Section WidgetsMore.

Context {B : Type} `{WebDriver B}.

(** With the three boxes ticked, as they are at first, the table shows
    every result of a run, in order. *)
Theorem all_boxes_show_every_result (driver : B)
    (domain_names extensions : list string) :
  let results := fst (app.domain_loop driver domain_names extensions) in
  app_widgets.filtered true true true results = results.
Proof.
  intros results.
  assert (T : Forall tri_state results)
    by apply (answers_lists _ _
                (app_domain_loop_answers domain_names extensions driver)).
  unfold app_widgets.filtered.
  induction T as [|r rs Hr _ IH]; simpl; [reflexivity |].
  destruct Hr as [E | [E | E]]; rewrite E; simpl; now rewrite IH.
Qed.

Lemma widgets_extension_loop (extensions : list string) :
  forall (driver : B) (domain_name : string) (check_count total_checks : nat),
    let run := app_widgets.extension_loop driver domain_name extensions
                 check_count total_checks in
    let plain := app.extension_loop driver domain_name extensions in
    fst (fst (fst run)) = fst plain
    /\ snd run = snd plain
    /\ snd (fst run) = check_count + length (fst plain)
    /\ fractions (snd (fst (fst run)))
       = map (fun k => (k, total_checks))
             (seq (S check_count) (length (fst plain))).
Proof.
  induction extensions as [|e es IH]; intros driver d c t; simpl.
  - repeat split. lia.
  - destruct (check_domain_availability app_py driver d e) as [r d1].
    specialize (IH d1 d (c + 1) t). simpl in IH.
    destruct (app_widgets.extension_loop d1 d es (c + 1) t)
      as [[[rs ev] final] d2].
    destruct (app.extension_loop d1 d es) as [rs' d2'].
    simpl in *. destruct IH as [-> [-> [-> F]]].
    repeat split; [lia |].
    rewrite F. replace (c + 1) with (S c) by lia. reflexivity.
Qed.

Lemma fractions_app (a b : list shown_event) :
  fractions (a ++ b) = (fractions a ++ fractions b)%list.
Proof.
  induction a as [|[s | k t] a IH]; simpl; [reflexivity | exact IH |].
  now rewrite IH.
Qed.

Lemma widgets_domain_loop (domain_names extensions : list string) :
  forall (driver : B) (check_count total_checks : nat),
    let run := app_widgets.domain_loop driver domain_names extensions
                 check_count total_checks in
    let plain := app.domain_loop driver domain_names extensions in
    fst (fst (fst run)) = fst plain
    /\ snd run = snd plain
    /\ snd (fst run) = check_count + length (fst plain)
    /\ fractions (snd (fst (fst run)))
       = map (fun k => (k, total_checks))
             (seq (S check_count) (length (fst plain))).
Proof.
  induction domain_names as [|n ns IH]; intros driver c t; simpl.
  - repeat split. lia.
  - destruct (is_empty n); [apply IH |].
    pose proof (widgets_extension_loop extensions driver n c t) as E.
    simpl in E.
    destruct (app_widgets.extension_loop driver n extensions c t)
      as [[[rs1 ev1] c1] d1].
    destruct (app.extension_loop driver n extensions) as [rs1' d1'].
    simpl in E. destruct E as [-> [-> [-> F1]]].
    specialize (IH d1' (c + length rs1') t). simpl in IH.
    destruct (app_widgets.domain_loop d1' ns extensions (c + length rs1') t)
      as [[[rs2 ev2] c2] d2].
    destruct (app.domain_loop d1' ns extensions) as [rs2' d2'].
    simpl in *. destruct IH as [-> [-> [-> F2]]].
    rewrite length_app, fractions_app, F1, F2, seq_app, map_app.
    repeat split. lia.
Qed.

Lemma filter_keeps_nonempty (names : list string) :
  Forall (fun n => is_empty n = false) names ->
  filter (fun s => negb (is_empty s)) names = names.
Proof.
  induction 1 as [|x xs Hx _ IH]; [reflexivity |].
  simpl. now rewrite Hx, IH.
Qed.

Lemma widgets_check_button (chrome : outcome B)
    (domain_names extensions : list string)
    (results : list CheckResult) (events : list shown_event) :
  app_widgets.check_button chrome domain_names extensions
  = Some (results, events) ->
  app.check_button chrome domain_names extensions = Some results
  /\ fractions events
     = map (fun k => (k, length domain_names * length extensions))
           (seq 1 (length results))
  /\ domain_names <> [] /\ extensions <> []
  /\ length results
     = length (filter (fun s => negb (is_empty s)) domain_names)
       * length extensions.
Proof.
  unfold app_widgets.check_button, app.check_button.
  destruct domain_names as [|n ns]; [discriminate |].
  destruct extensions as [|e es]; [discriminate |].
  destruct (app.init_driver chrome) as [driver |]; [| discriminate].
  pose proof (widgets_domain_loop (n :: ns) (e :: es) driver 0
                (length (n :: ns) * length (e :: es))) as W.
  pose proof (app_domain_loop_answers (n :: ns) (e :: es) driver) as A.
  apply Forall2_length in A. rewrite length_prod in A.
  destruct (app_widgets.domain_loop driver (n :: ns) (e :: es) 0
              (length (n :: ns) * length (e :: es)))
    as [[[rs ev] c] d].
  intros E. injection E as <- <-.
  cbn [fst snd] in W. destruct W as [W1 [_ [_ W4]]].
  rewrite <- W1 in A.
  split; [now rewrite W1 |].
  split; [now rewrite W4, <- W1 |].
  split; [discriminate |]. split; [discriminate |]. now rewrite A.
Qed.

(** The loop of the "Check Domains" button hands the progress bar the
    fractions 1/total, 2/total, ... one per result, where total is the
    number of names times the number of extensions: total is not zero and
    no fraction exceeds one, and the last one is one when no name is
    empty.  Showing them changes nothing in the results. *)
Theorem progress_runs_up_to_one (chrome : outcome B)
    (domain_names extensions : list string)
    (results : list CheckResult) (events : list shown_event) :
  app_widgets.check_button chrome domain_names extensions
  = Some (results, events) ->
  let total_checks := length domain_names * length extensions in
  app.check_button chrome domain_names extensions = Some results
  /\ fractions events
     = map (fun k => (k, total_checks)) (seq 1 (length results))
  /\ 0 < total_checks
  /\ length results <= total_checks
  /\ (Forall (fun n => is_empty n = false) domain_names ->
      length results = total_checks).
Proof.
  intros E total_checks. subst total_checks.
  destruct (widgets_check_button _ _ _ _ _ E) as [P [F [Hn [He L]]]].
  split; [exact P |]. split; [exact F |].
  split.
  - destruct domain_names; [now elim Hn |].
    destruct extensions; [now elim He |]. simpl. lia.
  - split.
    + rewrite L. apply Nat.mul_le_mono_r, filter_length_le.
    + intros Full. now rewrite L, (filter_keeps_nonempty _ Full).
Qed.

(** The names the web application reads from its text area or from the
    uploaded file are trimmed, lowered and not blank, so its loop skips
    none of them: the button gives a result for each name and extension,
    and the last fraction handed to the progress bar is total/total. *)
Theorem typed_names_fill_the_bar (chrome : outcome B)
    (lines extensions : list string)
    (results : list CheckResult) (events : list shown_event) :
  app_widgets.check_button chrome (app.input_names lines) extensions
  = Some (results, events) ->
  let total_checks := length (app.input_names lines) * length extensions in
  Forall (fun n => lower (strip n) = n /\ is_empty n = false)
         (app.input_names lines)
  /\ length results = total_checks
  /\ last (fractions events) (0, 0) = (total_checks, total_checks).
Proof.
  intros E total_checks.
  assert (N : Forall (fun n => lower (strip n) = n /\ is_empty n = false)
                     (app.input_names lines)).
  { unfold app.input_names. clear.
    induction lines as [|l ls IH]; simpl; [constructor |].
    destruct (is_empty (strip l)) eqn:El; simpl; [exact IH |].
    constructor; [| exact IH].
    split; [apply normal_form_idem | now rewrite is_empty_lower]. }
  destruct (widgets_check_button _ _ _ _ _ E) as [_ [F [Hn [He L]]]].
  assert (L' : length results = total_checks).
  { rewrite L, filter_keeps_nonempty; [reflexivity |].
    revert N. apply Forall_impl. now intros n [_ Hn']. }
  repeat split; [exact N | exact L' |].
  rewrite F, L'. subst total_checks.
  destruct (app.input_names lines) as [|n ns]; [now elim Hn |].
  destruct extensions as [|e es]; [now elim He |].
  change (length (n :: ns) * length (e :: es))
    with (S (length es + length ns * length (e :: es))).
  rewrite seq_S, map_app. cbn [map]. now rewrite last_last.
Qed.

End WidgetsMore.

(** ** The further properties at work *)

Lemma element_scan_stops_at_first_witness :
  element_scan [orphan "foo.com"; in_card "foo.com" "foo.com is taken"; stale]
               initial
  = Ok Taken
  /\ element_scan [orphan "foo.com"; stale;
                   in_card "foo.com" "foo.com is taken"] initial
     = Raise (OtherException "stale element reference").
Proof.
  split.
  - etransitivity;
      [ apply (element_scan_stops_at_first [orphan "foo.com"] [stale]
                 (in_card "foo.com" "foo.com is taken") initial);
        repeat constructor
      | reflexivity ].
  - etransitivity;
      [ apply (element_scan_stops_at_first [orphan "foo.com"]
                 [in_card "foo.com" "foo.com is taken"] stale initial);
        repeat constructor
      | reflexivity ].
Defined.

Lemma taken_indicator_in_any_case_witness :
  fst (check_domain_availability domain_checker_py (serving page_capitals)
         "foo" ".com")
  = classified "foo" ".com" Taken.
Proof.
  apply (taken_indicator_in_any_case domain_checker_py
           (serving page_capitals) (showing page_capitals) tt
           "foo" ".com" "<P>FOO.COM Is TAKEN</P>" "Domain search" "Is TAKEN");
    try reflexivity.
  simpl. auto.
Defined.

Lemma scripts_agree_witness :
  fst (check_domain_availability domain_checker_py (serving page_offer)
         "bar" ".com")
  = fst (check_domain_availability app_py (serving page_offer) "bar" ".com")
  /\ fst (check_domain_availability domain_checker_py (serving page_untitled)
            "bar" ".com")
     = errored "bar" ".com" "no title"
  /\ fst (check_domain_availability app_py (serving page_untitled)
            "bar" ".com")
     = classified "bar" ".com" Available_.
Proof.
  destruct (scripts_agree (serving page_offer) "bar" ".com")
    as [_ [Same _]].
  destruct (scripts_agree (serving page_untitled) "bar" ".com")
    as [_ [_ [_ Part]]].
  split.
  - apply (Same "<p>bar.com</p><button>add to cart</button>"). reflexivity.
  - destruct (Part "<p>bar.com</p><button>add to cart</button>"
                (OtherException "no title")) as [C W];
      [reflexivity | reflexivity |].
    split; [exact C | exact W].
Defined.

Lemma check_domains_prints_its_results_witness :
  snd (domain_checker.check_domains (Ok (serving page_offer))
         [" Bar "] [".com"])
  = ["Checking bar.com..."; "  Result: Yes - Available"].
Proof.
  etransitivity;
    [ apply (check_domains_prints_its_results (Ok (serving page_offer))
               (serving page_offer) (serving page_offer) tt
               [" Bar "] [".com"]); reflexivity
    | reflexivity ].
Defined.

Lemma announced_total_checks_witness :
  let lines := ["Foo" ++ nl; nl; " bar " ++ nl] in
  let domain_names :=
    fst (checker_input.read_domain_names ["domain_checker.py"]
           (Some lines) []) in
  domain_names = ["Foo"; "bar"]
  /\ length (fst (domain_checker.check_domains (Ok (serving page_offer))
                    domain_names domain_checker.default_extensions))
     = 6.
Proof.
  intros lines domain_names. split; [reflexivity |].
  destruct (announced_total_checks ["domain_checker.py"]
              (Some ["Foo" ++ nl; nl; " bar " ++ nl]) []
              (Ok (serving page_offer)) (serving page_offer)
              (serving page_offer) tt) as [_ Exact];
    [reflexivity | reflexivity |].
  destruct Exact as [_ L]; [simpl; lia | exact L].
Defined.

Lemma main_writes_one_row_per_result_witness :
  let run :=
    checker_input.main ["domain_checker.py"; "Bar"; "  "] None []
                       (Ok (serving page_offer)) in
  domain_checker.csv_file run
  = Some ("domain_check_results.csv",
          [ ["Domain Name"; "Extension"; "Full Domain"; "Available"; "Status"];
            ["bar"; ".com"; "bar.com"; "Yes"; "Available"];
            ["bar"; ".dev"; "bar.dev"; "Unknown"; "Unknown"];
            ["bar"; ".ai"; "bar.ai"; "Unknown"; "Unknown"] ]).
Proof.
  destruct (main_writes_one_row_per_result
              ["domain_checker.py"; "Bar"; "  "] None []
              (Ok (serving page_offer)) (serving page_offer)
              (serving page_offer) tt) as [F _];
    [reflexivity | reflexivity |].
  intros run. etransitivity; [exact F | reflexivity].
Defined.

Lemma progress_runs_up_to_one_witness :
  let pressed :=
    app_widgets.check_button (Ok (serving page_offer))
                             ["foo"; "bar"] [".com"; ".ai"] in
  fractions (snd (stored pressed)) = [(1, 4); (2, 4); (3, 4); (4, 4)]
  /\ length (fst (stored pressed)) = 4.
Proof.
  destruct (progress_runs_up_to_one (Ok (serving page_offer))
              ["foo"; "bar"] [".com"; ".ai"]
              (fst (stored (app_widgets.check_button
                              (Ok (serving page_offer))
                              ["foo"; "bar"] [".com"; ".ai"])))
              (snd (stored (app_widgets.check_button
                              (Ok (serving page_offer))
                              ["foo"; "bar"] [".com"; ".ai"]))))
    as [_ [F [_ [_ L]]]]; [reflexivity |].
  intros pressed. split.
  - etransitivity; [exact F | reflexivity].
  - etransitivity; [apply L; repeat constructor | reflexivity].
Defined.

Lemma typed_names_fill_the_bar_witness :
  let pressed :=
    app_widgets.check_button (Ok (serving page_offer))
                             (app.input_names [" Foo"; ""; "BAR "])
                             [".com"; ".ai"] in
  app.input_names [" Foo"; ""; "BAR "] = ["foo"; "bar"]
  /\ last (fractions (snd (stored pressed))) (0, 0) = (4, 4).
Proof.
  destruct (typed_names_fill_the_bar (Ok (serving page_offer))
              [" Foo"; ""; "BAR "] [".com"; ".ai"]
              (fst (stored (app_widgets.check_button
                              (Ok (serving page_offer))
                              (app.input_names [" Foo"; ""; "BAR "])
                              [".com"; ".ai"])))
              (snd (stored (app_widgets.check_button
                              (Ok (serving page_offer))
                              (app.input_names [" Foo"; ""; "BAR "])
                              [".com"; ".ai"]))))
    as [_ [_ F]]; [reflexivity |].
  intros pressed. split; [reflexivity |].
  etransitivity; [exact F | reflexivity].
Defined.
